(** * go-radx DICOM code generators: a shallow embedding

    The repository ships three build-time Python scripts:
    - [dicom/tag/generate_tag_values.py]   (tag dictionary, JSON input),
    - [dicom/uid/generate_uid_definitions.py] (UID registry, DocBook XML input),
    - [dicom/uid/generate_uid_constants.py] (UID constants, re-reads the registry).

    This development embeds their functions as Rocq functions and proves
    properties of the embedded code.

    Text is modelled as [string] over ASCII code points: the Python predicates
    and case mappings used by the scripts ([str.isdigit], [str.lower],
    [str.split], the regular-expression classes \w and \s) are Unicode aware,
    and the definitions below are their restriction to code points below 128.
    All statements are about this ASCII fragment; [ascii_text] says so where a
    statement ranges over arbitrary names.

    Input and output are explicit: a run takes the outcome of the retrieval
    as an argument and returns the contents of the artifact file. *)

From Stdlib Require Import ZArith List String Ascii Bool Lia.
From Stdlib Require Import Sorting.Sorted Sorting.Permutation.
From stdpp Require Import base gmap strings list.

Set Warnings "-register-all".
Local Open Scope string_scope.
Local Open Scope Z_scope.

(** ** Exceptions and results *)

Inductive exn : Type :=
  | ValueError      (* int() on a malformed literal, table not found *)
  | KeyError        (* dict subscript on a missing key *)
  | IndexError      (* list subscript out of range *)
  | URLError        (* urllib could not retrieve the document *)
  | DecodeError     (* the payload is not JSON / not well-formed XML *)
  | SystemExit      (* sys.exit(1) *)
  | UnicodeEncodeError.  (* print() of a text that sys.stdout cannot encode *)

Inductive result (A : Type) : Type :=
  | Ok (a : A)
  | Raise (e : exn).
Arguments Ok {A} a.
Arguments Raise {A} e.

Definition bind {A B} (r : result A) (k : A -> result B) : result B :=
  match r with
  | Ok a => k a
  | Raise e => Raise e
  end.

Notation "'let!' x ':=' r 'in' k" := (bind r (fun x => k))
  (at level 10, x name, r at level 100, k at level 200).

(** ** Python text primitives (ASCII) *)

Module Py.

Definition code (c : ascii) : nat := nat_of_ascii c.

Definition between (lo hi : nat) (c : ascii) : bool :=
  (Nat.leb lo (code c)) && (Nat.leb (code c) hi).

Definition is_ascii (c : ascii) : bool := Nat.ltb (code c) 128.

(* str.isspace / \s / str.split() / str.strip(): TAB LF VT FF CR, FS GS RS US, SPACE *)
Definition is_space (c : ascii) : bool :=
  between 9 13 c || between 28 31 c || Nat.eqb (code c) 32.

Definition is_digit (c : ascii) : bool := between 48 57 c.
Definition is_upper (c : ascii) : bool := between 65 90 c.
Definition is_lower (c : ascii) : bool := between 97 122 c.
Definition is_alpha (c : ascii) : bool := is_upper c || is_lower c.
Definition is_alnum (c : ascii) : bool := is_alpha c || is_digit c.

(* \w : alphanumeric or underscore *)
Definition is_word (c : ascii) : bool := is_alnum c || Nat.eqb (code c) 95.

Definition lower_char (c : ascii) : ascii :=
  if is_upper c then ascii_of_nat (code c + 32) else c.
Definition upper_char (c : ascii) : ascii :=
  if is_lower c then ascii_of_nat (code c - 32) else c.

Fixpoint smap (f : ascii -> ascii) (s : string) : string :=
  match s with
  | EmptyString => EmptyString
  | String c s' => String (f c) (smap f s')
  end.

Fixpoint sall (p : ascii -> bool) (s : string) : bool :=
  match s with
  | EmptyString => true
  | String c s' => p c && sall p s'
  end.

Fixpoint sany (p : ascii -> bool) (s : string) : bool :=
  match s with
  | EmptyString => false
  | String c s' => p c || sany p s'
  end.

Definition ascii_text (s : string) : bool := sall is_ascii s.

Definition lower (s : string) : string := smap lower_char s.
Definition upper (s : string) : string := smap upper_char s.

(* str.capitalize(): first character upper-cased, the rest lower-cased *)
Definition capitalize (s : string) : string :=
  match s with
  | EmptyString => EmptyString
  | String c s' => String (upper_char c) (lower s')
  end.

(* str.isdigit(): non-empty and every character a digit *)
Definition isdigit (s : string) : bool :=
  match s with
  | EmptyString => false
  | _ => sall is_digit s
  end.

(* truthiness of a str *)
Definition nonempty (s : string) : bool :=
  match s with
  | EmptyString => false
  | _ => true
  end.

(* s[:n] and s[n:] *)
Fixpoint take (n : nat) (s : string) : string :=
  match n, s with
  | S k, String c s' => String c (take k s')
  | _, _ => EmptyString
  end.

Fixpoint drop (n : nat) (s : string) : string :=
  match n, s with
  | S k, String _ s' => drop k s'
  | _, _ => s
  end.

Fixpoint lstrip (s : string) : string :=
  match s with
  | String c s' => if is_space c then lstrip s' else s
  | EmptyString => EmptyString
  end.

(* drops trailing white space: a suffix is kept from its first character on
   when something other than white space follows or it is itself not white. *)
Fixpoint rstrip (s : string) : string :=
  match s with
  | EmptyString => EmptyString
  | String c s' =>
      match rstrip s' with
      | EmptyString => if is_space c then EmptyString else String c EmptyString
      | r => String c r
      end
  end.

Definition strip (s : string) : string := rstrip (lstrip s).

(* old in s *)
Fixpoint contains (old s : string) : bool :=
  String.prefix old s ||
  match s with
  | EmptyString => false
  | String _ s' => contains old s'
  end.

(* s.replace(old, new) for a non-empty [old]: left to right, non-overlapping.
   [skip] counts the characters of a matched occurrence still to be passed. *)
Fixpoint replace_go (old new : string) (skip : nat) (s : string) : string :=
  match s with
  | EmptyString => EmptyString
  | String c s' =>
      match skip with
      | S k => replace_go old new k s'
      | O =>
          if String.prefix old s
          then String.append new (replace_go old new (Nat.pred (String.length old)) s')
          else String c (replace_go old new 0 s')
      end
  end.

Definition replace (old new s : string) : string := replace_go old new 0 s.

(* s.split(sep) for a non-empty [sep]; [cur] is the current piece, reversed.
   [limit] is the number of splits still allowed (None: unbounded). *)
Fixpoint rev_string (acc s : string) : string :=
  match s with
  | EmptyString => acc
  | String c s' => rev_string (String c acc) s'
  end.

Fixpoint split_go (sep : string) (limit : option nat) (skip : nat)
    (cur : string) (s : string) : list string :=
  match s with
  | EmptyString => [rev_string EmptyString cur]
  | String c s' =>
      match skip with
      | S k => split_go sep limit k cur s'
      | O =>
          let more := match limit with Some O => false | _ => true end in
          if more && String.prefix sep s
          then rev_string EmptyString cur ::
               split_go sep (option_map Nat.pred limit)
                        (Nat.pred (String.length sep)) EmptyString s'
          else split_go sep limit 0 (String c cur) s'
      end
  end.

Definition split_sep (sep s : string) : list string :=
  split_go sep None 0 EmptyString s.

Definition split_max (sep : string) (maxsplit : nat) (s : string) : list string :=
  split_go sep (Some maxsplit) 0 EmptyString s.

(* s.split(): pieces between runs of white space, no empty piece *)
Fixpoint split_ws_go (cur : string) (s : string) : list string :=
  match s with
  | EmptyString =>
      match cur with
      | EmptyString => []
      | _ => [rev_string EmptyString cur]
      end
  | String c s' =>
      if is_space c
      then match cur with
           | EmptyString => split_ws_go EmptyString s'
           | _ => rev_string EmptyString cur :: split_ws_go EmptyString s'
           end
      else split_ws_go (String c cur) s'
  end.

Definition split_ws (s : string) : list string := split_ws_go EmptyString s.

(* ''.join(words) and sep.join(words) *)
Definition concat_all (ws : list string) : string :=
  fold_right String.append EmptyString ws.

Fixpoint join (sep : string) (ws : list string) : string :=
  match ws with
  | [] => EmptyString
  | [w] => w
  | w :: rest => String.append w (String.append sep (join sep rest))
  end.

(* str ordering: lexicographic on code points *)
Definition str_le (a b : string) : bool := String.leb a b.

End Py.

(** ** int(text, 16)

    CPython's [PyLong_FromString] for base 16 on an ASCII literal: optional
    C white space, an optional sign, an optional 0x / 0X prefix (after which
    one underscore is allowed), then hexadecimal digits in which single
    underscores may separate digits, then optional C white space. *)

Module PyInt.
Import Py.

(* Py_ISSPACE: the C locale's white space *)
Definition is_cspace (c : ascii) : bool :=
  between 9 13 c || Nat.eqb (code c) 32.

Fixpoint skip_cspace (s : string) : string :=
  match s with
  | String c s' => if is_cspace c then skip_cspace s' else s
  | EmptyString => EmptyString
  end.

(* _PyLong_DigitValue: 37 marks a character that is no digit in any base *)
Definition digit_value (c : ascii) : Z :=
  if is_digit c then Z.of_nat (code c) - 48
  else if is_lower c then Z.of_nat (code c) - 87
  else if is_upper c then Z.of_nat (code c) - 55
  else 37.

Definition is_underscore (c : ascii) : bool := Nat.eqb (code c) 95.

(* the digit loop: [prev_us] tells that the previous character was an
   underscore; returns the value and the text left after the digits *)
Fixpoint digits16 (prev_us : bool) (acc : Z) (s : string) : option (Z * string) :=
  match s with
  | EmptyString => if prev_us then None else Some (acc, s)
  | String c s' =>
      if is_underscore c then
        if prev_us then None else digits16 true acc s'
      else if digit_value c <? 16 then
        digits16 false (acc * 16 + digit_value c) s'
      else if prev_us then None else Some (acc, s)
  end.

Definition strip_sign (s : string) : Z * string :=
  match s with
  | String "+" r => (1, r)
  | String "-" r => (-1, r)
  | _ => (1, s)
  end.

Definition strip_prefix16 (s : string) : string :=
  match s with
  | String "0" (String x r) =>
      if (Ascii.eqb x "x" || Ascii.eqb x "X")%bool then
        match r with
        | String "_" r' => r'
        | _ => r
        end
      else s
  | _ => s
  end.

Definition int16 (s : string) : result Z :=
  let '(sign, s2) := strip_sign (skip_cspace s) in
  let s3 := strip_prefix16 s2 in
  match s3 with
  | EmptyString => Raise ValueError
  | String c _ =>
      (* a leading underscore is refused, and at least one digit is needed *)
      if digit_value c <? 16 then
        match digits16 false 0 s3 with
        | Some (v, rest) =>
            match skip_cspace rest with
            | EmptyString => Ok (sign * v)
            | _ => Raise ValueError
            end
        | None => Raise ValueError
        end
      else Raise ValueError
  end.

(* format(n, 'x') and format(n, '04x') *)
Definition hex_char (d : Z) : ascii :=
  if d <? 10 then ascii_of_nat (Z.to_nat d + 48) else ascii_of_nat (Z.to_nat d + 87).

Fixpoint hex_go (fuel : nat) (n : Z) (acc : string) : string :=
  match fuel with
  | O => acc
  | S f =>
      let acc' := String (hex_char (n mod 16)) acc in
      if n / 16 =? 0 then acc' else hex_go f (n / 16) acc'
  end.

Definition hex (n : Z) : string :=
  hex_go (S (Z.to_nat (Z.log2 n))) n EmptyString.

Fixpoint zeros (n : nat) : string :=
  match n with
  | O => EmptyString
  | S k => String "0" (zeros k)
  end.

(* sign-aware zero padding to [width] characters *)
Definition format_0x (width : nat) (n : Z) : string :=
  let digits := hex (Z.abs n) in
  if n <? 0
  then String "-" (String.append (zeros (width - 1 - String.length digits)) digits)
  else String.append (zeros (width - String.length digits)) digits.

(* the sixteen digit values, four digits written out, and the test that
   format_0x 4 writes a number below 65536 as its four digits *)
Definition sixteen : list Z := map Z.of_nat (seq 0 16).

Definition four_digits (d1 d2 d3 d4 : Z) : string :=
  String (hex_char d1) (String (hex_char d2)
    (String (hex_char d3) (String (hex_char d4) EmptyString))).

Definition format4_agrees (d1 d2 d3 d4 : Z) : bool :=
  String.eqb (format_0x 4 (((d1 * 16 + d2) * 16 + d3) * 16 + d4))
             (four_digits d1 d2 d3 d4).

(* reading aids for the statements about [int16]: hexadecimal digits, how
   many a text holds, and the value of a run of them continuing from [acc] *)
Definition is_hex (c : ascii) : bool := digit_value c <? 16.

Fixpoint ndigits (s : string) : nat :=
  match s with
  | EmptyString => O
  | String c s' => if is_hex c then S (ndigits s') else ndigits s'
  end.

Fixpoint hexval (acc : Z) (s : string) : Z :=
  match s with
  | EmptyString => acc
  | String c s' => hexval (acc * 16 + digit_value c) s'
  end.

End PyInt.

(** ** generate_tag_values.py *)

Module TagGen.
Import Py.

(* one object of attributes.json *)
Record RawAttr : Type := {
  e_id : string;
  e_valueRepresentation : string;
  e_name : string;
  e_valueMultiplicity : string;
  e_keyword : string;
  e_retired : string
}.

Record Tag : Type := {
  group : Z;
  elem : Z;
  vr : list string;
  name : string;
  vm : string;
  keyword : string;
  retired : bool
}.

Definition allowed_vrs_separator : string := " or ".

(* the filter of the comprehension:
   (resolvable_tag_id := e[id].replace(x, 0)) and len(e[keyword]) > 0 *)
Definition resolvable (e : RawAttr) : string := replace "x" "0" (e_id e).

Definition selected (e : RawAttr) : bool :=
  nonempty (resolvable e) && Nat.ltb 0 (String.length (e_keyword e)).

(* the Tag(...) expression of the comprehension *)
Definition make_tag (e : RawAttr) : result Tag :=
  let resolvable_tag_id := resolvable e in
  let! g := PyInt.int16 (take 4 resolvable_tag_id) in
  let! el := PyInt.int16 (drop 4 resolvable_tag_id) in
  Ok {| group := g;
        elem := el;
        vr := split_sep allowed_vrs_separator
                (if negb (String.eqb (lower (take 4 resolvable_tag_id)) "fffe")
                 then e_valueRepresentation e else "NA");
        name := e_name e;
        vm := e_valueMultiplicity e;
        keyword := e_keyword e;
        retired := String.eqb (e_retired e) "Y" |}.

(* the list comprehension over attrs: the first exception ends it *)
Fixpoint tags_of (attrs : list RawAttr) : result (list Tag) :=
  match attrs with
  | [] => Ok []
  | e :: rest =>
      if selected e then
        let! t := make_tag e in
        let! ts := tags_of rest in
        Ok (t :: ts)
      else tags_of rest
  end.

(* [fetched] is the outcome of urlopen + json.loads *)
Definition read_tags_from_innolitics (fetched : result (list RawAttr)) : result (list Tag) :=
  let! attrs := fetched in
  tags_of attrs.

Definition vr_map : list (string * string) :=
  [ ("AE", "vr.ApplicationEntity"); ("AS", "vr.AgeString"); ("AT", "vr.AttributeTag");
    ("CS", "vr.CodeString"); ("DA", "vr.Date"); ("DS", "vr.DecimalString");
    ("DT", "vr.DateTime"); ("FD", "vr.FloatingPointDouble");
    ("FL", "vr.FloatingPointSingle"); ("IS", "vr.IntegerString");
    ("LO", "vr.LongString"); ("LT", "vr.LongText"); ("OB", "vr.OtherByte");
    ("OD", "vr.OtherDouble"); ("OF", "vr.OtherFloat"); ("OL", "vr.OtherLong");
    ("OV", "vr.OtherVeryLong"); ("OW", "vr.OtherWord"); ("PN", "vr.PersonName");
    ("SH", "vr.ShortString"); ("SL", "vr.SignedLong"); ("SQ", "vr.SequenceOfItems");
    ("SS", "vr.SignedShort"); ("ST", "vr.ShortText"); ("SV", "vr.SignedVeryLong");
    ("TM", "vr.Time"); ("UC", "vr.UnlimitedCharacters"); ("UI", "vr.UniqueIdentifier");
    ("UL", "vr.UnsignedLong"); ("UN", "vr.Unknown");
    ("UR", "vr.UniversalResourceIdentifier"); ("US", "vr.UnsignedShort");
    ("UT", "vr.UnlimitedText"); ("UV", "vr.UnsignedVeryLong");
    ("NA", "vr.Unknown") ].

(* dict.get(key, default) on the literal above (its keys are distinct) *)
Fixpoint dict_get (d : list (string * string)) (k dflt : string) : string :=
  match d with
  | [] => dflt
  | (k', v) :: rest => if String.eqb k' k then v else dict_get rest k dflt
  end.

Definition vr_string_to_go_const (v : string) : string :=
  dict_get vr_map v "vr.Unknown".

Definition dq : string := String (ascii_of_nat 34) EmptyString.
Definition tab : string := String (ascii_of_nat 9) EmptyString.
Definition new_line : string := String (ascii_of_nat 10) EmptyString.

Definition cat (parts : list string) : string := concat_all parts.

(* str(b).lower() *)
Definition bool_lower (b : bool) : string := if b then "true" else "false".

Definition tag_dict_entry (t : Tag) : string :=
  let start_indent := tab in
  let vr_list := join ", " (map vr_string_to_go_const (vr t)) in
  cat [ start_indent; keyword t; ": Info{Tag: "; keyword t;
        ", VRs: []vr.VR{"; vr_list; "}, Name: "; dq; name t; dq;
        ", Keyword: "; dq; keyword t; dq; ", VM: "; dq; vm t; dq;
        ", Retired: "; bool_lower (retired t); "}," ].

Definition var_line (t : Tag) : string :=
  cat [ "var "; keyword t; " = New(0x"; PyInt.format_0x 4 (group t);
        ", 0x"; PyInt.format_0x 4 (elem t); ")" ].

Section Generate.
(* the licence banner, a constant of the script *)
Variable INNOLITICS_CREDITS : string.

(* the text handed to print(..., file=out), with print's final newline *)
Definition render (tags : list Tag) : string :=
  cat [ "// AUTO-GENERATED from generate_tag_values.py. DO NOT EDIT."; new_line;
        INNOLITICS_CREDITS; new_line;
        "package tag"; new_line; new_line;
        "import "; dq; "github.com/harrison-ai/go-radx/dicom/vr"; dq; new_line; new_line;
        "// Standard DICOM tags as exported variables for convenient access."; new_line;
        "// These are all tags defined in the DICOM standard Part 6, Chapter 6."; new_line;
        "// https://dicom.nema.org/medical/dicom/current/output/html/part06.html#chapter_6";
        new_line;
        join new_line (map var_line tags); new_line; new_line;
        "// TagDict is a map of all standard DICOM tags to their metadata."; new_line;
        "// It provides VR information, names, keywords, value multiplicity, and retirement status.";
        new_line;
        "var TagDict = map[Tag]Info{"; new_line;
        join new_line (map tag_dict_entry tags); new_line;
        "}"; new_line ].

(* The artifact tag_values.go: None when the file does not exist. *)
Definition file_state : Type := option string.

(* generate(out): everything is computed before the single print *)
Definition generate (fetched : result (list RawAttr)) (out : string) : result string :=
  let! tags := read_tags_from_innolitics fetched in
  Ok (String.append out (render tags)).

(* main(): open(tag_values.go, w) creates or truncates the file, then
   generate runs inside the with block; an exception closes the file and
   propagates. Returns the file afterwards and the outcome. *)
Definition main (fetched : result (list RawAttr)) (file : file_state)
    : file_state * result unit :=
  let opened := EmptyString in
  match generate fetched opened with
  | Ok written => (Some written, Ok tt)
  | Raise e => (Some opened, Raise e)
  end.
End Generate.

(* the top-level Go names the rendered file declares, in order *)
Definition declared_names (tags : list Tag) : list string :=
  map keyword tags ++ ["TagDict"].

(** Vocabulary for the statements about coordinates. *)

(* the (group, element) pair of the tag built from a record *)
Definition coordinates (e : RawAttr) : result (Z * Z) :=
  let! t := make_tag e in
  Ok (group t, elem t).

Definition with_id (e : RawAttr) (id : string) : RawAttr :=
  {| e_id := id; e_valueRepresentation := e_valueRepresentation e;
     e_name := e_name e; e_valueMultiplicity := e_valueMultiplicity e;
     e_keyword := e_keyword e; e_retired := e_retired e |}.

Definition with_vr (e : RawAttr) (v : string) : RawAttr :=
  {| e_id := e_id e; e_valueRepresentation := v;
     e_name := e_name e; e_valueMultiplicity := e_valueMultiplicity e;
     e_keyword := e_keyword e; e_retired := e_retired e |}.

(* membership of a representation text in the keys of vr_map *)
Definition known_vr (v : string) : bool :=
  existsb (String.eqb v) (map fst vr_map).

(* an id of the form ggggeeee: eight characters, each a hexadecimal digit
   or the placeholder, the placeholder being [ph] *)
Definition token_char (ph c : ascii) : bool := PyInt.is_hex c || Ascii.eqb c ph.

Definition valid_token (ph : ascii) (id : string) : bool :=
  Nat.eqb (String.length id) 8 && sall (token_char ph) id.

(* the same token with every placeholder x written X *)
Definition upper_placeholder (id : string) : string :=
  smap (fun c => if Ascii.eqb c "x" then "X"%char else c) id.

(* the token with 0 written for the placeholder x *)
Definition zeroed (id : string) : string :=
  smap (fun c => if Ascii.eqb c "x" then "0"%char else c) id.

(** Sample records used to exercise the statements. *)
Definition item_record : RawAttr :=
  {| e_id := "FFFEe000"; e_valueRepresentation := "See Note 2 or OB";
     e_name := "Item"; e_valueMultiplicity := "1"; e_keyword := "Item";
     e_retired := "N" |}.

Definition pixel_spacing : RawAttr :=
  {| e_id := "00280030"; e_valueRepresentation := "DS";
     e_name := "Pixel Spacing"; e_valueMultiplicity := "2";
     e_keyword := "PixelSpacing"; e_retired := "N" |}.

(* a keyword of two spaces *)
Definition blank_keyword_record : RawAttr :=
  {| e_id := "00100010"; e_valueRepresentation := "PN";
     e_name := "Placeholder"; e_valueMultiplicity := "1";
     e_keyword := "  "; e_retired := "N" |}.

Definition no_keyword_record : RawAttr :=
  {| e_id := "00100011"; e_valueRepresentation := "PN";
     e_name := "Placeholder"; e_valueMultiplicity := "1";
     e_keyword := EmptyString; e_retired := "N" |}.

(* a representation text outside vr_map *)
Definition odd_vr_record : RawAttr :=
  {| e_id := "00100012"; e_valueRepresentation := "ZZ";
     e_name := "Odd"; e_valueMultiplicity := "1";
     e_keyword := "Odd"; e_retired := "N" |}.

(** Reading the rendered text back. *)







End TagGen.

(** ** generate_uid_constants.py *)

Module UidConst.
Import Py.

(* re.sub(r'[^\w\s]+', ' ', name): every maximal run of characters that are
   neither word characters nor white space becomes one space *)
Fixpoint sub_special (in_run : bool) (s : string) : string :=
  match s with
  | EmptyString => EmptyString
  | String c s' =>
      if is_word c || is_space c then String c (sub_special false s')
      else if in_run then sub_special true s'
      else String " " (sub_special true s')
  end.

Definition acronyms : list string :=
  [ "vr"; "uid"; "sop"; "ct"; "mr"; "us"; "pet"; "nm"; "xa"; "rf";
    "dx"; "mg"; "io"; "px"; "gm"; "sm"; "au"; "hd"; "sr"; "ko"; "pr";
    "rt"; "rwv"; "seg"; "fid"; "reg"; "jpeg"; "rle"; "mpeg"; "smpte";
    "dicom"; "hl7"; "ihe"; "iso"; "qr"; "mpps"; "gp"; "pps"; "pdf";
    "cda"; "stl"; "mtl"; "obj"; "iv"; "uv"; "roi"; "rtss"; "dvh";
    "mwl"; "ups"; "nud"; "fda"; "css"; "html"; "xml"; "json"; "uri" ].

Definition in_set (w : string) (set : list string) : bool :=
  existsb (String.eqb w) set.

Definition convert_word (word : string) : string :=
  let word_lower := lower word in
  if in_set word_lower acronyms then upper word
  else if isdigit word_lower then word
  else capitalize word.

Definition starts_with_digit (s : string) : bool :=
  match s with
  | String c _ => is_digit c
  | EmptyString => false
  end.

Definition to_go_constant_name (name : string) : string :=
  let name := sub_special false name in
  let words := split_ws name in
  let result := map convert_word words in
  let const_name := concat_all result in
  if starts_with_digit const_name then String.append "UID" const_name
  else const_name.

(* a row of uidMap: (uid, name, type, retired) *)
Definition uid_row : Type := string * string * string * bool.
(* what the generators keep of a row: (uid, name, retired) *)
Definition uid_entry : Type := string * string * bool.

Definition entry_uid (e : uid_entry) : string := fst (fst e).
Definition entry_name (e : uid_entry) : string := snd (fst e).
Definition entry_retired (e : uid_entry) : bool := snd e.

Definition select_rows (wanted : string -> bool) (uids : list uid_row) : list uid_entry :=
  flat_map (fun r => match r with
                     | (uid, name, typ, retired) =>
                         if wanted typ then [(uid, name, retired)] else []
                     end) uids.

(* list.sort(key=lambda x: x[0]): a stable sort on the uid text, compared
   as str. A stable sort has one result, computed here by insertion. *)
Fixpoint insert_by_uid (x : uid_entry) (l : list uid_entry) : list uid_entry :=
  match l with
  | [] => [x]
  | y :: l' =>
      if str_le (entry_uid x) (entry_uid y) then x :: l
      else y :: insert_by_uid x l'
  end.

Fixpoint sort_by_uid (l : list uid_entry) : list uid_entry :=
  match l with
  | [] => []
  | x :: l' => insert_by_uid x (sort_by_uid l')
  end.

(* the loop state: lines, seen_names, skipped *)
Record loop_state : Type := {
  lines : list string;
  seen_names : gmap string string;
  skipped : nat
}.

Definition tab : string := String (ascii_of_nat 9) EmptyString.
Definition dq : string := String (ascii_of_nat 34) EmptyString.
Definition nl : string := String (ascii_of_nat 10) EmptyString.

(* not name or name.strip() == '' *)
Definition is_blank (name : string) : bool :=
  negb (nonempty name) || String.eqb (strip name) EmptyString.

(* const_name as finally assigned, given the names seen so far *)
Definition resolve_name (seen : gmap string string) (uid name : string) : string :=
  let const_name := to_go_constant_name name in
  match seen !! const_name with
  | Some _ =>
      let suffix := replace "." "_" uid in
      (* suffix.split('_')[-1]: split never returns an empty list *)
      String.append const_name
        (String.append "_" (List.last (split_sep "_" suffix) EmptyString))
  | None => const_name
  end.

Definition comment_lines (name : string) (retired : bool) : list string :=
  if retired then
    [ concat_all [tab; "// "; name; " (RETIRED)"];
      concat_all [tab; "//"];
      concat_all [tab; "// Deprecated: This UID has been retired from the DICOM standard."] ]
  else [ concat_all [tab; "// "; name] ].

Definition decl_line (const_name uid : string) : string :=
  concat_all [tab; const_name; " = MustParse("; dq; uid; dq; ")"].

(* the body of the for loop, the same text in both generators *)
Definition loop_body (st : loop_state) (e : uid_entry) : loop_state :=
  let '(uid, name, retired) := e in
  if is_blank name then
    {| lines := lines st; seen_names := seen_names st; skipped := S (skipped st) |}
  else
    let const_name := resolve_name (seen_names st) uid name in
    {| lines := lines st ++ comment_lines name retired
                  ++ [decl_line const_name uid; EmptyString];
       seen_names := <[const_name := uid]> (seen_names st);
       skipped := skipped st |}.

Definition run_loop (header : list string) (entries : list uid_entry) : loop_state :=
  fold_left loop_body entries
    {| lines := header; seen_names := ∅; skipped := 0 |}.

(* str(n) for a length *)
Fixpoint dec_go (fuel n : nat) (acc : string) : string :=
  match fuel with
  | O => acc
  | S f =>
      let acc' := String (ascii_of_nat (48 + Nat.modulo n 10)) acc in
      if Nat.eqb (Nat.div n 10) 0 then acc' else dec_go f (Nat.div n 10) acc'
  end.
Definition dec (n : nat) : string := dec_go (S n) n EmptyString.

Definition is_transfer_syntax (typ : string) : bool :=
  String.eqb typ "TypeTransferSyntax".

Definition is_sop_class (typ : string) : bool :=
  in_set typ ["TypeSOPClass"; "TypeMetaSOPClass"].

Definition transfer_syntaxes (uids : list uid_row) : list uid_entry :=
  sort_by_uid (select_rows is_transfer_syntax uids).

Definition sop_classes (uids : list uid_row) : list uid_entry :=
  sort_by_uid (select_rows is_sop_class uids).

Definition transfer_syntax_header (total : nat) : list string :=
  [ "// AUTO-GENERATED - DO NOT EDIT";
    "// Generated from DICOM PS3.6 Part 6 - Data Dictionary";
    "// DICOM Standard Version: 2024b";
    "//";
    "// This file contains all Transfer Syntax UID constants for convenient access.";
    String.append "// Total: " (String.append (dec total) " Transfer Syntax UIDs");
    EmptyString;
    "package uid";
    EmptyString;
    "// Transfer Syntax UIDs";
    "// These are all the transfer syntaxes defined in the DICOM standard.";
    "var (" ].

Definition sop_class_header (total : nat) : list string :=
  [ "// AUTO-GENERATED - DO NOT EDIT";
    "// Generated from DICOM PS3.6 Part 6 - Data Dictionary";
    "// DICOM Standard Version: 2024b";
    "//";
    "// This file contains all SOP Class UID constants for convenient access.";
    String.append "// Total: " (String.append (dec total) " SOP Class UIDs");
    EmptyString;
    "package uid";
    EmptyString;
    "// SOP Class UIDs (including Meta SOP Classes)";
    "// These are all the SOP classes defined in the DICOM standard.";
    "var (" ].

(* the lines joined and written by output_path.write_text *)
Definition file_lines (header : list string) (entries : list uid_entry) : list string :=
  lines (run_loop header entries) ++ [")"; EmptyString].

Definition generate_transfer_syntax_file (uids : list uid_row) : string :=
  let entries := transfer_syntaxes uids in
  join nl (file_lines (transfer_syntax_header (length entries)) entries).

Definition generate_sop_class_file (uids : list uid_row) : string :=
  let entries := sop_classes uids in
  join nl (file_lines (sop_class_header (length entries)) entries).

(* what a generator prints once the file is written: the number of
   declarations, and the number of rows skipped when there are any *)
Definition report (kind output_path : string) (total skipped : nat) : list string :=
  concat_all ["Generated "; output_path; " with "; dec (total - skipped); " "; kind; " UIDs"]
  :: (if Nat.ltb 0 skipped
      then [concat_all ["  (Skipped "; dec skipped; " UIDs with empty names)"]]
      else []).

Definition transfer_syntax_report (uids : list uid_row) (output_path : string)
    : list string :=
  let entries := transfer_syntaxes uids in
  report "Transfer Syntax" output_path (length entries)
    (skipped (run_loop (transfer_syntax_header (length entries)) entries)).

Definition sop_class_report (uids : list uid_row) (output_path : string) : list string :=
  let entries := sop_classes uids in
  report "SOP Class" output_path (length entries)
    (skipped (run_loop (sop_class_header (length entries)) entries)).

(** The declarations of a var block, read off the same loop: one
    (const_name, uid) per entry that is not skipped, in emission order. *)
Fixpoint declarations (seen : gmap string string) (entries : list uid_entry)
    : list (string * string) :=
  match entries with
  | [] => []
  | (uid, name, retired) :: rest =>
      if is_blank name then declarations seen rest
      else
        let const_name := resolve_name seen uid name in
        (const_name, uid) :: declarations (<[const_name := uid]> seen) rest
  end.

Definition declared_names (entries : list uid_entry) : list string :=
  map fst (declarations ∅ entries).

Definition declared_uids (entries : list uid_entry) : list string :=
  map snd (declarations ∅ entries).

(* the lines the loop appends, rebuilt from the declarations *)
Fixpoint body_lines (seen : gmap string string) (entries : list uid_entry) : list string :=
  match entries with
  | [] => []
  | (uid, name, retired) :: rest =>
      if is_blank name then body_lines seen rest
      else
        let const_name := resolve_name seen uid name in
        comment_lines name retired ++ [decl_line const_name uid; EmptyString]
          ++ body_lines (<[const_name := uid]> seen) rest
  end.

(** Vocabulary for the statements about the var blocks. *)

(* the characters re.sub leaves in a name *)
Definition word_or_space (c : ascii) : bool := is_word c || is_space c.

(* an entry the loop does not skip *)
Definition surviving (e : uid_entry) : bool := negb (is_blank (entry_name e)).


Definition lex_le (a b : string) : Prop := str_le a b = true.

Definition uid_le (a b : uid_entry) : Prop := lex_le (entry_uid a) (entry_uid b).

(* the lines the loop appends for one surviving entry declared as [d] *)
Definition block (e : uid_entry) (d : string * string) : list string :=
  (comment_lines (entry_name e) (entry_retired e)
     ++ [decl_line (fst d) (snd d); EmptyString])%list.

(* the text after the last dot of a uid, as the loop computes it *)
Definition last_segment (uid : string) : string :=
  List.last (split_sep "_" (replace "." "_" uid)) EmptyString.

(** Modelled from the spec: the dotted-numeric comparison of section 4.5,
    which no function of the scripts implements. Keys are split at the
    dots, segments are read as decimal numbers and the lists of numbers are
    compared position by position (a proper prefix comes first). *)
Definition decimal_value (seg : string) : N :=
  (fix go (acc : N) (s : string) : N :=
     match s with
     | EmptyString => acc
     | String c s' => go (acc * 10 + (N.of_nat (code c) - 48))%N s'
     end) 0%N seg.

Fixpoint segments_le (a b : list N) : bool :=
  match a, b with
  | [], _ => true
  | _ :: _, [] => false
  | x :: a', y :: b' =>
      if (x <? y)%N then true
      else if (y <? x)%N then false
      else segments_le a' b'
  end.

Definition dotted_le (a b : string) : bool :=
  segments_le (map decimal_value (split_sep "." a)) (map decimal_value (split_sep "." b)).

(** Sample rows. *)
Definition nine_and_ten : list uid_row :=
  [ ("1.2.9", "Nine", "TypeTransferSyntax", false);
    ("1.2.10", "Ten", "TypeTransferSyntax", false) ].

Definition storage_pair : list uid_row :=
  [ ("1.2.3.1", "Storage", "TypeTransferSyntax", true);
    ("1.2.3", "Storage", "TypeTransferSyntax", false) ].


Definition punctuation_rows : list uid_row :=
  [ ("1.2.5", "---", "TypeTransferSyntax", false);
    ("1.2.6", "***", "TypeTransferSyntax", false) ].

End UidConst.

(** ** generate_uid_definitions.py *)

Module UidDefs.
Import Py.

(* xml.etree.ElementTree.Element: tag, text and children *)
Inductive element : Type :=
  | Element (tag : string) (text : option string) (children : list element).

Definition el_tag (e : element) : string := match e with Element t _ _ => t end.
Definition el_text (e : element) : option string := match e with Element _ x _ => x end.
Definition el_children (e : element) : list element := match e with Element _ _ cs => cs end.

Definition BR : string := "{http://docbook.org/ns/docbook}".

(* e.iter(tag): e and its descendants, document order, with that tag *)
Fixpoint iter (tg : string) (e : element) : list element :=
  match e with
  | Element t _ cs =>
      ((if String.eqb t tg then [e] else []) ++
       (fix over (l : list element) : list element :=
          match l with
          | [] => []
          | c :: l' => iter tg c ++ over l'
          end) cs)%list
  end.

(* e.find(tag): the first child with that tag *)
Definition find (tg : string) (e : element) : option element :=
  List.find (fun c => String.eqb (el_tag c) tg) (el_children e).

(* U+200B ZERO WIDTH SPACE and U+00AD SOFT HYPHEN, as UTF-8 *)
Definition zero_width_space : string :=
  String (ascii_of_nat 226) (String (ascii_of_nat 128) (String (ascii_of_nat 139) EmptyString)).
Definition soft_hyphen : string :=
  String (ascii_of_nat 194) (String (ascii_of_nat 173) EmptyString).

Definition clean_text (x : option string) : string :=
  match x with
  | Some t => replace zero_width_space EmptyString (strip t)
  | None => EmptyString
  end.

Definition cell_value (cell : element) : string :=
  match find (String.append BR "emphasis") cell with
  | Some emph_value => clean_text (el_text emph_value)
  | None => clean_text (el_text cell)
  end.

(* while len(cell_values) < len(column_names): cell_values.append('') *)
Definition pad (n : nat) (cells : list string) : list string :=
  cells ++ List.repeat EmptyString (n - length cells).

(* {k: v for k, v in zip(...)}: a later pair overwrites an earlier one *)
Definition dict_of (kvs : list (string * string)) : gmap string string :=
  fold_left (fun m kv => <[fst kv := snd kv]> m) kvs ∅.

Definition parse_row (column_names : list string) (row : element) : gmap string string :=
  let cell_values := map cell_value (iter (String.append BR "para") row) in
  dict_of (combine column_names (pad (length column_names) cell_values)).

Definition caption_is (caption : string) (table : element) : bool :=
  match find (String.append BR "caption") table with
  | Some caption_elem =>
      match el_text caption_elem with
      | Some t => String.eqb t caption
      | None => false
      end
  | None => false
  end.

Fixpoint parse_first (labels : list string) (caption : string) (tables : list element)
    : result (list (gmap string string)) :=
  match tables with
  | [] => Raise ValueError
  | table :: rest =>
      if caption_is caption table then
        match find (String.append BR "tbody") table with
        | None => parse_first labels caption rest
        | Some tbody => Ok (map (parse_row labels) (iter (String.append BR "tr") tbody))
        end
      else parse_first labels caption rest
  end.

Definition parse_table (root : element) (labels : list string) (caption : string)
    : result (list (gmap string string)) :=
  parse_first labels caption (iter (String.append BR "table") root).

(* d[k], del d[k], l[i] *)
Definition getitem (d : gmap string string) (k : string) : result string :=
  match d !! k with
  | Some v => Ok v
  | None => Raise KeyError
  end.

Definition delitem (d : gmap string string) (k : string) : result (gmap string string) :=
  match d !! k with
  | Some _ => Ok (delete k d)
  | None => Raise KeyError
  end.

Definition index (l : list string) (i : nat) : result string :=
  match nth_error l i with
  | Some v => Ok v
  | None => Raise IndexError
  end.

Definition retired_marker : string := "(Retired)".

(* the body of the post-processing loop of parse_uid_values_table;
   both tests read the local [name], bound before either assignment *)
Definition post_process (attr : gmap string string) : result (gmap string string) :=
  let! name := getitem attr "UID Name" in
  let attr :=
    if contains retired_marker name then
      <["UID Name" := strip (replace retired_marker EmptyString name)]>
        (<["Retired" := "Retired"]> attr)
    else attr in
  if contains ":" name then
    let parts := split_max ":" 1 name in
    let! p0 := index parts 0 in
    let attr := <["UID Name" := strip p0]> attr in
    let! p1 := index parts 1 in
    Ok (<["UID Info" := strip p1]> attr)
  else Ok attr.

Fixpoint for_each (f : gmap string string -> result (gmap string string))
    (attrs : list (gmap string string)) : result (list (gmap string string)) :=
  match attrs with
  | [] => Ok []
  | a :: rest =>
      let! a' := f a in
      let! rest' := for_each f rest in
      Ok (a' :: rest')
  end.

Definition uid_values_labels : list string :=
  ["UID Value"; "UID Name"; "UID Keyword"; "UID Type"; "UID Info"; "Retired"].

Definition parse_uid_values_table (root : element) : result (list (gmap string string)) :=
  let labels := uid_values_labels in
  let! attrs := parse_table root labels "UID Values" in
  for_each post_process attrs.

Definition frames_labels : list string :=
  ["UID Value"; "UID Name"; "UID Keyword"; "Normative Reference"].

Definition post_process_frame (attr : gmap string string) : result (gmap string string) :=
  let attr := <["UID Type" := "Well-known frame of reference"]> attr in
  let attr := <["UID Info" := EmptyString]> attr in
  let attr := <["Retired" := EmptyString]> attr in
  delitem attr "Normative Reference".

Definition parse_frames_of_reference_table (root : element)
    : result (list (gmap string string)) :=
  let labels := frames_labels in
  let! attrs := parse_table root labels "Well-known Frames of Reference" in
  for_each post_process_frame attrs.

(* re.split(r'[\s\-/\.]+', keyword): pieces between maximal runs of
   separators; a separator run at either end leaves an empty piece *)
Definition is_separator (c : ascii) : bool :=
  is_space c || Ascii.eqb c "-" || Ascii.eqb c "/" || Ascii.eqb c ".".

Fixpoint re_split_go (in_run : bool) (cur : string) (s : string) : list string :=
  match s with
  | EmptyString => [rev_string EmptyString cur]
  | String c s' =>
      if is_separator c then
        if in_run then re_split_go true cur s'
        else rev_string EmptyString cur :: re_split_go true EmptyString s'
      else re_split_go false (String c cur) s'
  end.

Definition re_split (s : string) : list string := re_split_go false EmptyString s.

Definition type_acronyms : list (string * string) :=
  [ ("sop", "SOP"); ("dicom", "DICOM"); ("ldap", "LDAP");
    ("oid", "OID"); ("uid", "UID"); ("uids", "UIDs") ].

Fixpoint assoc (d : list (string * string)) (k : string) : option string :=
  match d with
  | [] => None
  | (k', v) :: rest => if String.eqb k' k then Some v else assoc rest k
  end.

Definition sanitize_word (word : string) : string :=
  let lower_word := lower word in
  match assoc type_acronyms lower_word with
  | Some a => a
  | None => capitalize word
  end.

Definition sanitize_keyword (keyword : string) : string :=
  let words := re_split keyword in
  concat_all (map sanitize_word (List.filter nonempty words)).

Definition dq : string := String (ascii_of_nat 34) EmptyString.
Definition backslash : string := String (ascii_of_nat 92) EmptyString.
Definition tab : string := String (ascii_of_nat 9) EmptyString.
Definition nl : string := String (ascii_of_nat 10) EmptyString.

(* text.replace(quote, backslash quote) *)
Definition escape_quotes (s : string) : string :=
  replace dq (String.append backslash dq) s.

(* attr.get(k, '') *)
Definition get_or_empty (d : gmap string string) (k : string) : string :=
  match d !! k with
  | Some v => v
  | None => EmptyString
  end.

Definition uid_map_line (attr : gmap string string) : result string :=
  let! uid := getitem attr "UID Value" in
  let! n := getitem attr "UID Name" in
  let name := escape_quotes n in
  let! uid_type := getitem attr "UID Type" in
  let info := escape_quotes (get_or_empty attr "UID Info") in
  let! r := getitem attr "Retired" in
  let retired := if String.eqb r "Retired" then "true" else "false" in
  Ok (concat_all
        [ tab; dq; uid; dq; ": {UID: "; dq; uid; dq; ", Name: "; dq; name; dq;
          ", Type: Type"; sanitize_keyword uid_type; ", Info: "; dq; info; dq;
          ", Retired: "; retired; "}," ]).

Fixpoint collect {A B : Type} (f : A -> result B) (l : list A) : result (list B) :=
  match l with
  | [] => Ok []
  | a :: rest =>
      let! b := f a in
      let! bs := collect f rest in
      Ok (b :: bs)
  end.

Definition generate_uid_map (attrs : list (gmap string string)) : result string :=
  let! body := collect uid_map_line attrs in
  Ok (join nl
        ([ "// uidMap contains metadata for all standard DICOM UIDs.";
           "var uidMap = map[string]Info{" ] ++ body ++ ["}"])%list).

Definition important_uids : list (string * string) :=
  [ ("1.2.840.10008.1.2", "ImplicitVRLittleEndian");
    ("1.2.840.10008.1.2.1", "ExplicitVRLittleEndian");
    ("1.2.840.10008.1.2.2", "ExplicitVRBigEndian");
    ("1.2.840.10008.1.2.1.99", "DeflatedExplicitVRLittleEndian");
    ("1.2.840.10008.1.2.5", "RLELossless");
    ("1.2.840.10008.1.2.4.50", "JPEGBaseline8Bit");
    ("1.2.840.10008.1.2.4.51", "JPEGExtended12Bit");
    ("1.2.840.10008.1.2.4.57", "JPEGLossless");
    ("1.2.840.10008.1.2.4.70", "JPEGLosslessSV1");
    ("1.2.840.10008.1.2.4.80", "JPEGLSLossless");
    ("1.2.840.10008.1.2.4.81", "JPEGLSNearLossless");
    ("1.2.840.10008.1.2.4.90", "JPEG2000Lossless");
    ("1.2.840.10008.1.2.4.91", "JPEG2000");
    ("1.2.840.10008.1.1", "VerificationSOPClass");
    ("1.2.840.10008.5.1.4.1.1.1", "ComputedRadiographyImageStorage");
    ("1.2.840.10008.5.1.4.1.1.2", "CTImageStorage");
    ("1.2.840.10008.5.1.4.1.1.4", "MRImageStorage");
    ("1.2.840.10008.5.1.4.1.1.7", "SecondaryCaptureImageStorage");
    ("1.2.840.10008.5.1.4.1.2.1.1", "PatientRootQRFind");
    ("1.2.840.10008.5.1.4.1.2.1.2", "PatientRootQRMove");
    ("1.2.840.10008.5.1.4.1.2.1.3", "PatientRootQRGet");
    ("1.2.840.10008.5.1.4.1.2.2.1", "StudyRootQRFind");
    ("1.2.840.10008.5.1.4.1.2.2.2", "StudyRootQRMove");
    ("1.2.840.10008.5.1.4.1.2.2.3", "StudyRootQRGet");
    ("1.2.840.10008.5.1.4.31", "ModalityWorklistInformationFind") ].

(* sorted(important_uids.items()): the keys are distinct, so the pairs are
   ordered by key *)
Fixpoint insert_item (x : string * string) (l : list (string * string))
    : list (string * string) :=
  match l with
  | [] => [x]
  | y :: l' => if str_le (fst x) (fst y) then x :: l else y :: insert_item x l'
  end.

Definition sorted_items (d : list (string * string)) : list (string * string) :=
  fold_right insert_item [] d.

(* {attr[UID Value]: attr for attr in attrs} *)
Fixpoint index_by_uid (attrs : list (gmap string string))
    (acc : gmap string (gmap string string)) : result (gmap string (gmap string string)) :=
  match attrs with
  | [] => Ok acc
  | attr :: rest =>
      let! uid := getitem attr "UID Value" in
      index_by_uid rest (<[uid := attr]> acc)
  end.

Definition common_constant (uid_map : gmap string (gmap string string))
    (item : string * string) : result (list string) :=
  let '(uid, name) := item in
  match uid_map !! uid with
  | None => Ok []
  | Some attr =>
      let! comment := getitem attr "UID Name" in
      let! r := getitem attr "Retired" in
      let comment := if nonempty r then String.append comment " (Retired)" else comment in
      Ok [ concat_all [tab; "// "; name; " - "; comment];
           concat_all [tab; name; " = MustParse("; dq; uid; dq; ")"];
           EmptyString ]
  end.

Definition generate_common_constants (attrs : list (gmap string string)) : result string :=
  let! uid_map := index_by_uid attrs ∅ in
  let! blocks := collect (common_constant uid_map) (sorted_items important_uids) in
  Ok (join nl
        ([ "// Common DICOM UIDs exported as package-level variables for convenient access.";
           "var (" ] ++ List.concat blocks ++ [")"])%list).

Definition DICOM_VERSION : string := "2024b".
Definition PACKAGE_NAME : string := "uid".
Definition XML_URL : string :=
  "https://dicom.nema.org/medical/dicom/current/source/docbook/part06/part06.xml".

(* U+2713 CHECK MARK, as UTF-8 *)
Definition check_mark : string :=
  String (ascii_of_nat 226) (String (ascii_of_nat 156) (String (ascii_of_nat 147) EmptyString)).

(* str(n) for a count *)
Definition dec (n : nat) : string := UidConst.dec n.

(* where the XML comes from: --local DIR (does DIR/part06.xml exist, and
   what ET.parse makes of it) or the download (urlopen and ET.parse) *)
Inductive xml_source : Type :=
  | Local (dir : string) (file_exists : bool) (parsed : result element)
  | Download (fetched : result element).

(* the tree main works on, the messages left aside *)
Definition get_root (src : xml_source) : result element :=
  match src with
  | Local _ false _ => Raise SystemExit
  | Local _ true parsed => parsed
  | Download (Ok root) => Ok root
  | Download (Raise _) => Raise SystemExit
  end.

(* the clean-up loop of main *)
Definition clean_up (attr : gmap string string) : result (gmap string string) :=
  let! n := getitem attr "UID Name" in
  let attr := <["UID Name" := replace "&" "and" n]> attr in
  let! v := getitem attr "UID Value" in
  Ok (<["UID Value" := replace soft_hyphen EmptyString v]> attr).

(* sum(1 for a in all_uids if ...) *)
Definition count_where (p : gmap string string -> result bool)
    (attrs : list (gmap string string)) : result nat :=
  let! flags := collect p attrs in
  Ok (length (List.filter (fun b : bool => b) flags)).

(* the rows main hands to write_output_file, the messages left aside *)
Definition load (src : xml_source) : result (list (gmap string string)) :=
  let! root := get_root src in
  let! uid_values := parse_uid_values_table root in
  let! frames_of_ref := parse_frames_of_reference_table root in
  let all_uids := (uid_values ++ frames_of_ref)%list in
  for_each clean_up all_uids.

Section Main.
(* the fixed blocks of text the script writes verbatim *)
Variables MIT_LICENSE type_enum info_struct helper_functions : string.
(* str(OUTPUT_FILE): the path of uid_definitions.go, beside the script *)
Variable OUTPUT_FILE : string.
(* whether the encoding of sys.stdout has every character of a text *)
Variable can_encode : string -> bool.

(* write_output_file: open(output_path, w) empties the file, then the
   pieces are written in order. Returns what the file holds when the
   function ends, normally or by an exception. *)
Definition write_output_file (attrs : list (gmap string string)) : string * result unit :=
  let f := concat_all
    [ "// AUTO-GENERATED by generate_uid_definitions.py. DO NOT EDIT."; nl;
      "// Generated from DICOM PS3.6 Part 6 - Data Dictionary"; nl;
      "// DICOM Standard Version: "; DICOM_VERSION; nl;
      "// Source: https://dicom.nema.org/medical/dicom/current/source/docbook/part06/part06.xml";
      nl; "//"; nl; MIT_LICENSE; nl; nl;
      "package "; PACKAGE_NAME; nl; nl;
      type_enum; nl; info_struct; nl ] in
  match generate_common_constants attrs with
  | Raise e => (f, Raise e)
  | Ok constants =>
      let f := concat_all [f; constants; nl; nl] in
      match generate_uid_map attrs with
      | Raise e => (f, Raise e)
      | Ok uid_map => (concat_all [f; uid_map; nl; nl; helper_functions], Ok tt)
      end
  end.

(* print(text): sys.stdout encodes the text, or the call raises *)
Definition print (text : string) : result unit :=
  if can_encode text then Ok tt else Raise UnicodeEncodeError.

(* the first lines of main, up to tree.getroot(). The message after the
   download is printed inside the try block, so that its failure too ends
   in sys.exit(1); the messages to sys.stderr are escaped, not refused. *)
Definition fetch_root (src : xml_source) : result element :=
  match src with
  | Local dir file_exists parsed =>
      let! _ := print (concat_all ["Using local XML from: "; dir]) in
      if file_exists then parsed else Raise SystemExit
  | Download fetched =>
      let! _ := print (concat_all ["Downloading: "; XML_URL]) in
      match (let! root := fetched in
             let! _ := print "Download complete, processing..." in
             Ok root) with
      | Ok root => Ok root
      | Raise _ => Raise SystemExit
      end
  end.

(* main, from the first message to the one before write_output_file *)
Definition prepare (src : xml_source) : result (list (gmap string string)) :=
  let! root := fetch_root src in
  let! _ := print "Parsing Table A-1: UID Values..." in
  let! uid_values := parse_uid_values_table root in
  let! _ := print (concat_all ["  Found "; dec (length uid_values); " UID entries"]) in
  let! _ := print "Parsing Table A-2: Well-known Frames of Reference..." in
  let! frames_of_ref := parse_frames_of_reference_table root in
  let! _ := print (concat_all ["  Found "; dec (length frames_of_ref);
                               " frame of reference entries"]) in
  let all_uids := (uid_values ++ frames_of_ref)%list in
  let! _ := print (concat_all ["Total UIDs: "; dec (length all_uids)]) in
  let! all_uids := for_each clean_up all_uids in
  let! _ := print (concat_all ["Writing output to: "; OUTPUT_FILE]) in
  Ok all_uids.

(* the first of the closing messages *)
Definition success_line : string :=
  concat_all [check_mark; " Successfully generated "; OUTPUT_FILE].

(* main, after write_output_file: the closing messages and their counts *)
Definition closing (all_uids : list (gmap string string)) : result (nat * nat * nat) :=
  let! _ := print success_line in
  let! _ := print (concat_all ["  Total UIDs: "; dec (length all_uids)]) in
  let! ts := count_where (fun a => let! t := getitem a "UID Type" in
                                    Ok (contains "Transfer Syntax" t)) all_uids in
  let! _ := print (concat_all ["  Transfer Syntaxes: "; dec ts]) in
  let! sc := count_where (fun a => let! t := getitem a "UID Type" in
                                    Ok (contains "SOP Class" t)) all_uids in
  let! _ := print (concat_all ["  SOP Classes: "; dec sc]) in
  let! rt := count_where (fun a => let! r := getitem a "Retired" in
                                    Ok (String.eqb r "Retired")) all_uids in
  let! _ := print (concat_all ["  Retired UIDs: "; dec rt]) in
  Ok (ts, sc, rt).

(* main(): [file] is uid_definitions.go before the run (None: absent);
   returns the file after the run and the outcome *)
Definition main (src : xml_source) (file : option string)
    : option string * result (nat * nat * nat) :=
  match prepare src with
  | Raise e => (file, Raise e)
  | Ok all_uids =>
      match write_output_file all_uids with
      | (written, Raise e) => (Some written, Raise e)
      | (written, Ok _) => (Some written, closing all_uids)
      end
  end.
End Main.

(** Vocabulary for the statements about the registry rows. *)

(* the keys every later stage reads with a subscript *)
Definition complete (attr : gmap string string) : Prop :=
  is_Some (attr !! "UID Value") /\ is_Some (attr !! "UID Name")
  /\ is_Some (attr !! "UID Type") /\ is_Some (attr !! "Retired").

(* a row that holds every one of [labels] *)
Definition has_keys (labels : list string) (attr : gmap string string) : Prop :=
  forall k, In k labels -> is_Some (attr !! k).

(** Sample rows and documents. *)
Definition colon_row : gmap string string :=
  dict_of [ ("UID Value", "1.2.840.10008.1.9"); ("UID Name", "Storage (Retired): old");
            ("UID Keyword", "Storage"); ("UID Type", "SOP Class");
            ("UID Info", EmptyString); ("Retired", EmptyString) ].

Definition plain_retired_row : gmap string string :=
  dict_of [ ("UID Value", "1.2.840.10008.1.9"); ("UID Name", "Storage (Retired)");
            ("UID Keyword", "Storage"); ("UID Type", "SOP Class");
            ("UID Info", EmptyString); ("Retired", EmptyString) ].

Definition odd_type_row : gmap string string :=
  dict_of [ ("UID Value", "1.2.3"); ("UID Name", "Thing");
            ("UID Keyword", "Thing"); ("UID Type", "Brand new kind");
            ("UID Info", EmptyString); ("Retired", EmptyString) ].


(** Vocabulary for the statements about the parsers and the writers. *)

(* a table parse_table can read: it has the caption and a body *)
Definition usable (caption : string) (table : element) : bool :=
  caption_is caption table &&
  match find (String.append BR "tbody") table with
  | Some _ => true
  | None => false
  end.

(* a text without any of the characters sanitize_keyword splits at *)
Definition no_separator (s : string) : bool := sall (fun c => negb (is_separator c)) s.

(* every double quote of the text comes right after a backslash *)
Fixpoint quotes_guarded (after_backslash : bool) (s : string) : bool :=
  match s with
  | EmptyString => true
  | String c s' =>
      (negb (Ascii.eqb c (ascii_of_nat 34)) || after_backslash)
      && quotes_guarded (Ascii.eqb c (ascii_of_nat 92)) s'
  end.

(* the replacement that undoes escape_quotes *)
Definition unescape_quotes (s : string) : string :=
  replace (String.append backslash dq) dq s.

(* the row holds this UID Value *)
Definition has_uid (uid : string) (attr : gmap string string) : bool :=
  match attr !! "UID Value" with
  | Some v => String.eqb v uid
  | None => false
  end.

(** Sample elements. *)
Definition para_of (text : option string) (children : list element) : element :=
  Element (String.append BR "para") text children.
Definition td_of (children : list element) : element :=
  Element (String.append BR "td") None children.
Definition tr_of (cells : list element) : element :=
  Element (String.append BR "tr") None cells.
Definition table_of (caption : string) (rows : list element) : element :=
  Element (String.append BR "table") None
    [ Element (String.append BR "caption") (Some caption) [];
      Element (String.append BR "tbody") None rows ].

(* a body row with two cells, the second inside an emphasis element *)
Definition short_row : element :=
  tr_of [ td_of [para_of (Some "1.2.840.10008.1.1") []];
          td_of [para_of None
                   [Element (String.append BR "emphasis") (Some " Verification ") []]] ].

(* a document with one row in each of the two tables, after a table that
   has the first caption and no body *)
Definition small_document : element :=
  Element (String.append BR "book") None
    [ Element (String.append BR "table") None
        [ Element (String.append BR "caption") (Some "UID Values") [] ];
      table_of "UID Values"
        [ tr_of [ td_of [para_of (Some "1.2.840.10008.1.1") []];
                  td_of [para_of (Some "Verification & Test (Retired)") []];
                  td_of [para_of (Some "Verification") []];
                  td_of [para_of (Some "SOP Class") []];
                  td_of [para_of None []] ] ];
      table_of "Well-known Frames of Reference"
        [ tr_of [ td_of [para_of (Some "1.2.840.10008.1.4.1.1") []];
                  td_of [para_of (Some "Talairach Brain Atlas Frame of Reference") []];
                  td_of [para_of (Some "TalairachBrainAtlas") []];
                  td_of [para_of None []] ] ] ].

End UidDefs.

(** * Properties *)

(** ** The definitions on the examples of the docstrings *)

Module Examples.
Import Py.

Example int16_plain : PyInt.int16 "0028" = Ok 40.
Proof. reflexivity. Qed.

Example int16_either_case : PyInt.int16 "FfFe" = Ok 65534.
Proof. reflexivity. Qed.

Example int16_prefix : PyInt.int16 "0X12" = Ok 18.
Proof. reflexivity. Qed.

Example int16_underscore : PyInt.int16 "1_2" = Ok 18.
Proof. reflexivity. Qed.

Example int16_not_hex : PyInt.int16 "31XX" = Raise ValueError.
Proof. reflexivity. Qed.

Example int16_empty : PyInt.int16 EmptyString = Raise ValueError.
Proof. reflexivity. Qed.

Example format_04x_pads : PyInt.format_0x 4 40 = "0028".
Proof. reflexivity. Qed.

Example format_04x_zero : PyInt.format_0x 4 0 = "0000".
Proof. reflexivity. Qed.

Example format_04x_negative : PyInt.format_0x 4 (-1) = "-001".
Proof. reflexivity. Qed.

Example format_04x_wide : PyInt.format_0x 4 1048575 = "fffff".
Proof. reflexivity. Qed.

Example split_vrs : split_sep " or " "US or SS or OW" = ["US"; "SS"; "OW"].
Proof. reflexivity. Qed.

Example split_first_colon : split_max ":" 1 "a: b: c" = ["a"; " b: c"].
Proof. reflexivity. Qed.

Example strip_both_ends : strip "  ab  c d " = "ab  c d".
Proof. reflexivity. Qed.

(* one pass of replace can leave a new occurrence behind *)
Example replace_single_pass :
  replace "(Retired)" EmptyString "(Reti(Retired)red)" = "(Retired)".
Proof. reflexivity. Qed.

Example pixel_spacing_tag :
  TagGen.make_tag TagGen.pixel_spacing
  = Ok {| TagGen.group := 40; TagGen.elem := 48; TagGen.vr := ["DS"];
          TagGen.name := "Pixel Spacing"; TagGen.vm := "2";
          TagGen.keyword := "PixelSpacing"; TagGen.retired := false |}.
Proof. reflexivity. Qed.

Example pixel_spacing_line :
  option_map TagGen.var_line
    (match TagGen.make_tag TagGen.pixel_spacing with Ok t => Some t | Raise _ => None end)
  = Some "var PixelSpacing = New(0x0028, 0x0030)".
Proof. reflexivity. Qed.

Example go_name_docstring :
  UidConst.to_go_constant_name "Implicit VR Little Endian" = "ImplicitVRLittleEndian".
Proof. reflexivity. Qed.

Example go_name_leading_digit :
  UidConst.to_go_constant_name "12-lead ECG" = "UID12LeadEcg".
Proof. reflexivity. Qed.

Example go_name_punctuation : UidConst.to_go_constant_name "--- !" = EmptyString.
Proof. reflexivity. Qed.

Example sanitize_sop_instance :
  UidDefs.sanitize_keyword "Well-known SOP Instance" = "WellKnownSOPInstance".
Proof. reflexivity. Qed.

Example sanitize_frame_of_reference :
  UidDefs.sanitize_keyword "Well-known frame of reference" = "WellKnownFrameOfReference".
Proof. reflexivity. Qed.

Example sanitize_coding_scheme :
  UidDefs.sanitize_keyword "DICOM UIDs as a Coding Scheme" = "DICOMUIDsAsACodingScheme".
Proof. reflexivity. Qed.

End Examples.

(** ** Facts about [int16] *)

Module PyIntFacts.
Import Py PyInt.

Ltac each_char c :=
  destruct c as [[] [] [] [] [] [] [] []]; vm_compute; try reflexivity; try discriminate;
  try (intros; discriminate); try (intros; reflexivity).

Lemma digit_value_nonneg c : 0 <= digit_value c.
Proof. each_char c. Qed.

Lemma hex_not_cspace c : is_hex c = true -> is_cspace c = false.
Proof. each_char c. Qed.

Lemma hex_not_underscore c : is_hex c = true -> is_underscore c = false.
Proof. each_char c. Qed.

Lemma underscore_not_hex c : is_underscore c = true -> is_hex c = false.
Proof. each_char c. Qed.

Lemma hex_strip_sign c s : is_hex c = true -> strip_sign (String c s) = (1, String c s).
Proof. each_char c. Qed.

Lemma hex_not_x c : is_hex c = true -> (Ascii.eqb c "x" || Ascii.eqb c "X")%bool = false.
Proof. each_char c. Qed.

Lemma digit_15_lower c : digit_value c = 15 -> lower_char c = "f"%char.
Proof. each_char c. Qed.

Lemma digit_14_lower c : digit_value c = 14 -> lower_char c = "e"%char.
Proof. each_char c. Qed.

Lemma ndigits_le_length s : (ndigits s <= String.length s)%nat.
Proof. induction s as [|c s IH]; simpl; [lia|]. destruct (is_hex c); lia. Qed.

Lemma ndigits_full s : ndigits s = String.length s -> sall is_hex s = true.
Proof.
  induction s as [|c s IH]; simpl; [reflexivity|].
  pose proof (ndigits_le_length s).
  destruct (is_hex c); simpl; intros H1; [apply IH; lia | lia].
Qed.

Lemma ndigits_skip_cspace s : (ndigits (skip_cspace s) <= ndigits s)%nat.
Proof.
  induction s as [|c s IH]; simpl; [lia|].
  destruct (is_cspace c); simpl; destruct (is_hex c); lia.
Qed.

Lemma ndigits_tail c s : (ndigits s <= ndigits (String c s))%nat.
Proof. simpl. destruct (is_hex c); lia. Qed.

Lemma ndigits_strip_sign s : (ndigits (snd (strip_sign s)) <= ndigits s)%nat.
Proof.
  destruct s as [|c s]; [simpl; lia|].
  pose proof (ndigits_tail c s).
  unfold strip_sign.
  destruct (Ascii.eqb_spec c "+") as [->|]; [simpl; lia|].
  destruct (Ascii.eqb_spec c "-") as [->|]; [simpl; lia|].
  destruct c as [[] [] [] [] [] [] [] []]; simpl; try lia; congruence.
Qed.

End PyIntFacts.

Module PyIntFacts2.
Import Py PyInt PyIntFacts.

Lemma ndigits_strip_prefix16 s : (ndigits (strip_prefix16 s) <= ndigits s)%nat.
Proof.
  unfold strip_prefix16.
  destruct s as [|c s]; [lia|].
  destruct (Ascii.eqb_spec c "0") as [->|Hc].
  - destruct s as [|x r]; [lia|].
    destruct (Ascii.eqb x "x" || Ascii.eqb x "X")%bool; [|lia].
    pose proof (ndigits_tail "0" (String x r)). pose proof (ndigits_tail x r).
    destruct r as [|u r']; [lia|].
    pose proof (ndigits_tail u r').
    destruct (Ascii.eqb_spec u "_") as [->|Hu]; [lia|].
    destruct u as [[] [] [] [] [] [] [] []]; try lia; congruence.
  - destruct c as [[] [] [] [] [] [] [] []]; try lia; congruence.
Qed.

Lemma digits16_bound s : forall p acc v rest,
  0 <= acc -> digits16 p acc s = Some (v, rest) ->
  acc <= v /\ v < (acc + 1) * 16 ^ Z.of_nat (ndigits s).
Proof.
  induction s as [|c s IH]; intros p acc v rest Hacc H; simpl in H.
  - destruct p; [discriminate|]. injection H as <- <-. simpl. lia.
  - simpl ndigits. destruct (is_underscore c) eqn:Hu.
    + rewrite (underscore_not_hex _ Hu).
      destruct p; [discriminate|]. eapply IH; eauto.
    + fold (is_hex c) in H. destruct (is_hex c) eqn:Hh.
      * pose proof (digit_value_nonneg c) as Hd.
        assert (Hd16 : digit_value c < 16) by (unfold is_hex in Hh; lia).
        apply IH in H; [|lia]. destruct H as [H1 H2].
        rewrite Nat2Z.inj_succ, Z.pow_succ_r by lia.
        assert (0 < 16 ^ Z.of_nat (ndigits s)) by (apply Z.pow_pos_nonneg; lia).
        split; nia.
      * destruct p; [discriminate|]. injection H as <- <-.
        assert (0 < 16 ^ Z.of_nat (ndigits s)) by (apply Z.pow_pos_nonneg; lia).
        split; nia.
Qed.

Lemma int16_bound s v : int16 s = Ok v -> Z.abs v < 16 ^ Z.of_nat (ndigits s).
Proof.
  unfold int16. intros H.
  pose proof (ndigits_skip_cspace s) as H1.
  pose proof (ndigits_strip_sign (skip_cspace s)) as H2.
  destruct (strip_sign (skip_cspace s)) as [sign s2] eqn:Es. simpl in H2.
  pose proof (ndigits_strip_prefix16 s2) as H3.
  assert (Hsign : sign = 1 \/ sign = -1).
  { unfold strip_sign in Es. destruct (skip_cspace s) as [|c r].
    - injection Es as <- <-. auto.
    - destruct c as [[] [] [] [] [] [] [] []]; injection Es as <- <-; auto. }
  destruct (strip_prefix16 s2) as [|c r] eqn:E3; [discriminate|].
  destruct (digit_value c <? 16); [|discriminate].
  destruct (digits16 false 0 (String c r)) as [[w rest]|] eqn:Ed; [|discriminate].
  destruct (skip_cspace rest); [|discriminate].
  injection H as <-.
  apply digits16_bound in Ed; [|lia]. destruct Ed as [Hw1 Hw2].
  assert (16 ^ Z.of_nat (ndigits (String c r)) <= 16 ^ Z.of_nat (ndigits s))
    by (apply Z.pow_le_mono_r; lia).
  destruct Hsign as [-> | ->]; lia.
Qed.

Lemma digits16_all_hex s : forall acc,
  sall is_hex s = true -> digits16 false acc s = Some (hexval acc s, EmptyString).
Proof.
  induction s as [|c s IH]; intros acc H; simpl in *; [reflexivity|].
  apply andb_true_iff in H as [Hc Hs].
  rewrite (hex_not_underscore _ Hc). fold (is_hex c). rewrite Hc. auto.
Qed.

Lemma int16_all_hex c s :
  sall is_hex (String c s) = true -> int16 (String c s) = Ok (hexval 0 (String c s)).
Proof.
  intros H. pose proof H as H'. simpl in H'. apply andb_true_iff in H' as [Hc Hs].
  unfold int16. simpl skip_cspace. rewrite (hex_not_cspace _ Hc).
  rewrite (hex_strip_sign _ _ Hc).
  assert (Hp : strip_prefix16 (String c s) = String c s).
  { unfold strip_prefix16. destruct s as [|x r].
    - destruct c as [[] [] [] [] [] [] [] []]; reflexivity.
    - simpl in Hs. apply andb_true_iff in Hs as [Hx _].
      rewrite (hex_not_x _ Hx).
      destruct c as [[] [] [] [] [] [] [] []]; reflexivity. }
  rewrite Hp. fold (is_hex c). rewrite Hc.
  rewrite (digits16_all_hex _ 0 H). simpl. f_equal. lia.
Qed.

Lemma hexval_bounds s : forall acc, sall is_hex s = true -> 0 <= acc ->
  acc * 16 ^ Z.of_nat (String.length s) <= hexval acc s
  /\ hexval acc s < (acc + 1) * 16 ^ Z.of_nat (String.length s).
Proof.
  induction s as [|c s IH]; intros acc H Hacc; simpl hexval; simpl String.length.
  - simpl. lia.
  - simpl in H. apply andb_true_iff in H as [Hc Hs].
    pose proof (digit_value_nonneg c) as Hd.
    assert (Hd16 : digit_value c < 16) by (unfold is_hex in Hc; lia).
    destruct (IH (acc * 16 + digit_value c) Hs ltac:(lia)) as [H1 H2].
    rewrite Nat2Z.inj_succ, Z.pow_succ_r by lia.
    assert (0 < 16 ^ Z.of_nat (String.length s)) by (apply Z.pow_pos_nonneg; lia).
    split; nia.
Qed.

End PyIntFacts2.

(** ** The tag pipeline *)

Module TagFacts.
Import Py PyInt PyIntFacts PyIntFacts2 TagGen.

Lemma take_length n s : (String.length (take n s) <= n)%nat.
Proof.
  revert s. induction n as [|n IH]; intros [|c s]; simpl; try lia.
  specialize (IH s). lia.
Qed.

(* a text of at most four characters that int() reads as 0xFFFE is the
   four digits f f f e, in either case *)
Lemma int16_fffe s :
  (String.length s <= 4)%nat -> int16 s = Ok 65534 -> lower s = "fffe".
Proof.
  intros Hlen H.
  pose proof (int16_bound _ _ H) as Hb.
  pose proof (ndigits_le_length s) as Hn.
  assert (Hfull : ndigits s = String.length s /\ String.length s = 4%nat).
  { destruct (ndigits s) as [|[|[|[|k]]]] eqn:E; simpl in Hb; try lia. }
  destruct Hfull as [Hfull H4].
  apply ndigits_full in Hfull.
  destruct s as [|c1 [|c2 [|c3 [|c4 [|c5 s]]]]]; simpl in H4; try lia.
  rewrite (int16_all_hex _ _ Hfull) in H. injection H as H.
  simpl in Hfull.
  repeat (apply andb_true_iff in Hfull as [? Hfull]).
  unfold is_hex in *.
  pose proof (digit_value_nonneg c1). pose proof (digit_value_nonneg c2).
  pose proof (digit_value_nonneg c3). pose proof (digit_value_nonneg c4).
  simpl in H.
  assert (digit_value c1 = 15 /\ digit_value c2 = 15
          /\ digit_value c3 = 15 /\ digit_value c4 = 14) as (E1 & E2 & E3 & E4) by lia.
  unfold lower. simpl.
  rewrite (digit_15_lower _ E1), (digit_15_lower _ E2),
          (digit_15_lower _ E3), (digit_14_lower _ E4).
  reflexivity.
Qed.

Lemma make_tag_ok e t :
  make_tag e = Ok t ->
  int16 (take 4 (resolvable e)) = Ok (group t)
  /\ int16 (drop 4 (resolvable e)) = Ok (elem t)
  /\ vr t = split_sep allowed_vrs_separator
              (if negb (String.eqb (lower (take 4 (resolvable e))) "fffe")
               then e_valueRepresentation e else "NA")
  /\ keyword t = e_keyword e.
Proof.
  unfold make_tag, bind. intros H.
  destruct (int16 (take 4 (resolvable e))) as [g|]; [|discriminate].
  destruct (int16 (drop 4 (resolvable e))) as [el|]; [|discriminate].
  injection H as <-. simpl. auto.
Qed.



End TagFacts.

Module TokenFacts.
Import Py PyInt PyIntFacts PyIntFacts2 TagGen TagFacts.

Lemma prefix_single a c s :
  String.prefix (String a EmptyString) (String c s) = Ascii.eqb a c.
Proof.
  cbn [String.prefix]. destruct (ascii_dec a c) as [->|H].
  - rewrite Ascii.eqb_refl. destruct s; reflexivity.
  - symmetry. apply Ascii.eqb_neq. exact H.
Qed.

Lemma replace_x_zeroed s : replace "x" "0" s = zeroed s.
Proof.
  unfold replace, zeroed. induction s as [|c s IH]; [reflexivity|].
  cbn [replace_go smap]. rewrite prefix_single, <- IH.
  rewrite (Ascii.eqb_sym "x" c).
  destruct (Ascii.eqb c "x"); reflexivity.
Qed.

Lemma token_char_zero c :
  token_char "x" c = true -> is_hex (if Ascii.eqb c "x" then "0"%char else c) = true.
Proof. unfold token_char. each_char c. Qed.

Lemma zeroed_hex s : sall (token_char "x") s = true -> sall is_hex (zeroed s) = true.
Proof.
  induction s as [|c s IH]; simpl; [reflexivity|].
  intros H. apply andb_true_iff in H as [Hc Hs].
  rewrite (token_char_zero _ Hc). simpl. auto.
Qed.

Lemma sall_take p n s : sall p s = true -> sall p (take n s) = true.
Proof.
  revert s. induction n as [|n IH]; intros [|c s]; simpl; auto.
  intros H. apply andb_true_iff in H as [-> Hs]. simpl. auto.
Qed.

Lemma sall_drop p n s : sall p s = true -> sall p (drop n s) = true.
Proof.
  revert s. induction n as [|n IH]; intros [|c s]; simpl; auto.
  intros H. apply andb_true_iff in H as [_ Hs]. auto.
Qed.

Lemma smap_length f s : String.length (smap f s) = String.length s.
Proof. induction s; simpl; congruence. Qed.

Lemma take_drop_length s :
  String.length s = 8%nat ->
  String.length (take 4 s) = 4%nat /\ String.length (drop 4 s) = 4%nat.
Proof.
  destruct s as [|c1 [|c2 [|c3 [|c4 [|c5 [|c6 [|c7 [|c8 [|c9 s]]]]]]]]];
    simpl; intros H; try discriminate; auto.
Qed.

(* four hexadecimal digits are read as a number below 65536 *)
Lemma int16_four s :
  sall is_hex s = true -> String.length s = 4%nat ->
  int16 s = Ok (hexval 0 s) /\ 0 <= hexval 0 s < 65536.
Proof.
  intros Hh Hl. destruct s as [|c s]; [discriminate|].
  split; [apply int16_all_hex; exact Hh|].
  pose proof (hexval_bounds _ 0 Hh ltac:(lia)) as [H1 H2].
  rewrite Hl in H1, H2.
  change (16 ^ Z.of_nat 4) with 65536 in H1, H2. lia.
Qed.

Lemma coordinates_zeroed e :
  valid_token "x" (e_id e) = true ->
  coordinates e = Ok (hexval 0 (take 4 (zeroed (e_id e))),
                      hexval 0 (drop 4 (zeroed (e_id e))))
  /\ 0 <= hexval 0 (take 4 (zeroed (e_id e))) < 65536
  /\ 0 <= hexval 0 (drop 4 (zeroed (e_id e))) < 65536.
Proof.
  unfold valid_token. intros H. apply andb_true_iff in H as [Hl Hc].
  apply Nat.eqb_eq in Hl. apply zeroed_hex in Hc.
  assert (Hl' : String.length (zeroed (e_id e)) = 8%nat)
    by (unfold zeroed; rewrite smap_length; exact Hl).
  destruct (take_drop_length _ Hl') as [Ht Hd].
  destruct (int16_four _ (sall_take _ 4 _ Hc) Ht) as [Hg Hgr].
  destruct (int16_four _ (sall_drop _ 4 _ Hc) Hd) as [He Her].
  repeat split; try lia.
  unfold coordinates, make_tag, resolvable. rewrite replace_x_zeroed.
  rewrite Hg, He. reflexivity.
Qed.

Lemma token_char_lower c :
  token_char "x" c = true ->
  token_char "x" (lower_char c) = true
  /\ digit_value (if Ascii.eqb (lower_char c) "x" then "0"%char else lower_char c)
     = digit_value (if Ascii.eqb c "x" then "0"%char else c).
Proof. unfold token_char. each_char c; intros; split; reflexivity. Qed.

Lemma lower_token s :
  sall (token_char "x") s = true -> sall (token_char "x") (lower s) = true.
Proof.
  induction s as [|c s IH]; simpl; [reflexivity|].
  intros H. apply andb_true_iff in H as [Hc Hs].
  destruct (token_char_lower _ Hc) as [-> _]. simpl. auto.
Qed.

Lemma hexval_lower_take n s : forall acc,
  sall (token_char "x") s = true ->
  hexval acc (take n (zeroed (lower s))) = hexval acc (take n (zeroed s)).
Proof.
  revert s. induction n as [|n IH]; intros [|c s] acc H; simpl; try reflexivity.
  simpl in H. apply andb_true_iff in H as [Hc Hs].
  destruct (token_char_lower _ Hc) as [_ ->]. apply IH, Hs.
Qed.

Lemma hexval_lower_all s : forall acc,
  sall (token_char "x") s = true ->
  hexval acc (zeroed (lower s)) = hexval acc (zeroed s).
Proof.
  induction s as [|c s IH]; intros acc H; simpl; try reflexivity.
  simpl in H. apply andb_true_iff in H as [Hc Hs].
  destruct (token_char_lower _ Hc) as [_ ->]. apply IH, Hs.
Qed.

Lemma hexval_lower_drop n s : forall acc,
  sall (token_char "x") s = true ->
  hexval acc (drop n (zeroed (lower s))) = hexval acc (drop n (zeroed s)).
Proof.
  revert s. induction n as [|n IH]; intros s acc H.
  - destruct s; simpl; [reflexivity|]. apply (hexval_lower_all (String a s)), H.
  - destruct s as [|c s]; simpl; [reflexivity|].
    simpl in H. apply andb_true_iff in H as [_ Hs]. apply IH, Hs.
Qed.

End TokenFacts.

Module TagClaims.
Import Py PyInt PyIntFacts PyIntFacts2 TagGen TagFacts TokenFacts.

(** C6 (amended): a valid eight-character token whose placeholders are the
    lowercase x normalises to two integers in 0..65535, the halves of the
    token read with 0 for each placeholder; the pair is the same when the
    hexadecimal digits are written in lowercase. *)
Theorem lowercase_placeholder_coordinates (e : RawAttr) :
  valid_token "x" (e_id e) = true ->
  exists g el,
    coordinates e = Ok (g, el)
    /\ 0 <= g < 65536 /\ 0 <= el < 65536
    /\ g = hexval 0 (take 4 (zeroed (e_id e)))
    /\ el = hexval 0 (drop 4 (zeroed (e_id e)))
    /\ coordinates (with_id e (lower (e_id e))) = Ok (g, el).
Proof.
  intros Hv.
  destruct (coordinates_zeroed e Hv) as (Hc & Hg & He).
  assert (Hv' : valid_token "x" (e_id (with_id e (lower (e_id e)))) = true).
  { unfold valid_token in *. simpl. apply andb_true_iff in Hv as [Hl Hs].
    unfold lower at 1. rewrite smap_length, Hl. simpl. apply lower_token, Hs. }
  destruct (coordinates_zeroed _ Hv') as (Hc' & _ & _).
  change (e_id (with_id e (lower (e_id e)))) with (lower (e_id e)) in Hc'.
  unfold valid_token in Hv. apply andb_true_iff in Hv as [_ Hs].
  rewrite (hexval_lower_take 4 _ 0 Hs), (hexval_lower_drop 4 _ 0 Hs) in Hc'.
  eexists _, _. repeat split; try eassumption; lia.
Qed.

Lemma lowercase_placeholder_coordinates_witness :
  exists g el,
    coordinates (with_id item_record "0020xxxx") = Ok (g, el)
    /\ 0 <= g < 65536 /\ 0 <= el < 65536
    /\ g = 32 /\ el = 0
    /\ coordinates (with_id item_record "0020xxxx") = Ok (g, el).
Proof.
  apply (lowercase_placeholder_coordinates (with_id item_record "0020xxxx")).
  reflexivity.
Defined.

(** C6, as stated, fails: the same token with the placeholder written X is
    not normalised at all, int() raises ValueError on its second half. *)
Lemma uppercase_placeholder_raises :
  valid_token "x" "0020xxxx" = true
  /\ valid_token "X" (upper_placeholder "0020xxxx") = true
  /\ coordinates (with_id item_record "0020xxxx") = Ok (32, 0)
  /\ coordinates (with_id item_record (upper_placeholder "0020xxxx")) = Raise ValueError.
Proof. repeat split; reflexivity. Qed.

Lemma nonempty_zeroed s : nonempty (zeroed s) = nonempty s.
Proof. destruct s; reflexivity. Qed.

Lemma selected_spec e :
  selected e = true <-> e_id e <> EmptyString /\ e_keyword e <> EmptyString.
Proof.
  unfold selected, resolvable. rewrite replace_x_zeroed, nonempty_zeroed.
  rewrite andb_true_iff.
  destruct (e_id e) as [|a i], (e_keyword e) as [|b k]; cbn;
    split; intros [H1 H2]; try discriminate; try (split; congruence);
    try (split; reflexivity); congruence.
Qed.

Lemma tags_of_selected attrs : forall tags,
  tags_of attrs = Ok tags ->
  Forall2 (fun e t => make_tag e = Ok t) (List.filter selected attrs) tags.
Proof.
  induction attrs as [|e attrs IH]; intros tags H; simpl in H.
  - injection H as <-. constructor.
  - simpl. destruct (selected e).
    + unfold bind in H. destruct (make_tag e) as [t|] eqn:Et; [|discriminate].
      destruct (tags_of attrs) as [ts|]; [|discriminate].
      injection H as <-. constructor; auto.
    + auto.
Qed.

(** C8 (amended): the records that become tags are exactly those whose id
    and keyword are both non-empty; the keyword is not trimmed. *)
Theorem included_iff_id_and_keyword_nonempty (attrs : list RawAttr) (tags : list Tag) :
  tags_of attrs = Ok tags ->
  Forall2 (fun e t => make_tag e = Ok t) (List.filter selected attrs) tags
  /\ forall e, selected e = true <-> e_id e <> EmptyString /\ e_keyword e <> EmptyString.
Proof.
  intros H. split; [apply tags_of_selected, H | apply selected_spec].
Qed.

Lemma included_iff_id_and_keyword_nonempty_witness :
  Forall2 (fun e t => make_tag e = Ok t)
    (List.filter selected [pixel_spacing; no_keyword_record; blank_keyword_record])
    [ {| group := 40; elem := 48; vr := ["DS"]; name := "Pixel Spacing"; vm := "2";
         keyword := "PixelSpacing"; retired := false |};
      {| group := 16; elem := 16; vr := ["PN"]; name := "Placeholder"; vm := "1";
         keyword := "  "; retired := false |} ]
  /\ forall e, selected e = true <-> e_id e <> EmptyString /\ e_keyword e <> EmptyString.
Proof.
  apply (included_iff_id_and_keyword_nonempty
           [pixel_spacing; no_keyword_record; blank_keyword_record]).
  reflexivity.
Defined.

(** C8, as stated, fails: a keyword made of white space only is empty
    after trimming, yet its record becomes a tag. *)
Lemma whitespace_keyword_is_kept :
  strip (e_keyword blank_keyword_record) = EmptyString
  /\ exists t, tags_of [blank_keyword_record] = Ok [t] /\ keyword t = "  ".
Proof. split; [reflexivity|]. eexists. split; reflexivity. Qed.

End TagClaims.

(** ** The order on str *)

Module StrOrder.
Import Py.

Lemma ascii_compare_eq a b : Ascii.compare a b = Eq -> a = b.
Proof.
  unfold Ascii.compare. intros H. apply N.compare_eq in H.
  rewrite <- (ascii_N_embedding a), <- (ascii_N_embedding b). congruence.
Qed.

Lemma ascii_compare_lt_trans a b c :
  Ascii.compare a b = Lt -> Ascii.compare b c = Lt -> Ascii.compare a c = Lt.
Proof.
  unfold Ascii.compare. rewrite !N.compare_lt_iff. lia.
Qed.

Lemma str_le_cons a s b t :
  str_le (String a s) (String b t) =
  match Ascii.compare a b with
  | Lt => true
  | Eq => str_le s t
  | Gt => false
  end.
Proof.
  unfold str_le, String.leb. simpl. destruct (Ascii.compare a b); reflexivity.
Qed.

Lemma str_le_nil s : str_le EmptyString s = true.
Proof. destruct s; reflexivity. Qed.

Lemma str_le_refl s : str_le s s = true.
Proof.
  induction s as [|a s IH]; [reflexivity|].
  rewrite str_le_cons.
  replace (Ascii.compare a a) with Eq; [exact IH|].
  symmetry. unfold Ascii.compare. apply N.compare_refl.
Qed.

Lemma str_le_trans s : forall t u,
  str_le s t = true -> str_le t u = true -> str_le s u = true.
Proof.
  induction s as [|a s IH]; intros t u H1 H2; [apply str_le_nil|].
  destruct t as [|b t]; [discriminate|].
  destruct u as [|c u]; [discriminate|].
  rewrite str_le_cons in *.
  destruct (Ascii.compare a b) eqn:Eab; try discriminate.
  - apply ascii_compare_eq in Eab. subst b.
    destruct (Ascii.compare a c); try discriminate; eauto.
  - destruct (Ascii.compare b c) eqn:Ebc; try discriminate.
    + apply ascii_compare_eq in Ebc. subst c. rewrite Eab. reflexivity.
    + rewrite (ascii_compare_lt_trans _ _ _ Eab Ebc). reflexivity.
Qed.

Lemma str_le_total s t : str_le s t = false -> str_le t s = true.
Proof.
  intros H. destruct (String.leb_total s t) as [H'|H']; [|exact H'].
  unfold str_le in H. congruence.
Qed.

End StrOrder.

(** ** The UID constant files *)

Module UidConstFacts.
Import Py UidConst StrOrder.

Lemma insert_by_uid_perm x l : Permutation (insert_by_uid x l) (x :: l).
Proof.
  induction l as [|y l IH]; simpl; [reflexivity|].
  destruct (str_le (entry_uid x) (entry_uid y)); [reflexivity|].
  rewrite IH. apply perm_swap.
Qed.

Lemma sort_by_uid_perm l : Permutation (sort_by_uid l) l.
Proof.
  induction l as [|x l IH]; simpl; [reflexivity|].
  rewrite insert_by_uid_perm. constructor. exact IH.
Qed.

Lemma insert_by_uid_sorted x l :
  StronglySorted uid_le l -> StronglySorted uid_le (insert_by_uid x l).
Proof.
  induction l as [|y l IH]; intros Hs; simpl.
  - repeat constructor.
  - inversion Hs as [|? ? Hl Hy]; subst.
    destruct (str_le (entry_uid x) (entry_uid y)) eqn:E.
    + constructor; [exact Hs|]. constructor; [exact E|].
      eapply Forall_impl; [exact Hy|].
      intros z Hz. unfold uid_le, lex_le in *. eapply str_le_trans; eauto.
    + constructor; [auto|].
      eapply Permutation_Forall; [symmetry; apply insert_by_uid_perm|].
      constructor; [|exact Hy]. apply str_le_total, E.
Qed.

Lemma sort_by_uid_sorted l : StronglySorted uid_le (sort_by_uid l).
Proof.
  induction l as [|x l IH]; simpl; [constructor|].
  apply insert_by_uid_sorted, IH.
Qed.

(* stability: entries with the same uid keep their order *)
Lemma insert_by_uid_stable k x l :
  List.filter (fun e => String.eqb (entry_uid e) k) (insert_by_uid x l)
  = List.filter (fun e => String.eqb (entry_uid e) k) (x :: l).
Proof.
  induction l as [|y l IH]; [reflexivity|].
  simpl insert_by_uid.
  destruct (str_le (entry_uid x) (entry_uid y)) eqn:E; [reflexivity|].
  simpl in *. rewrite IH.
  destruct (String.eqb_spec (entry_uid x) k) as [Hx|Hx];
    destruct (String.eqb_spec (entry_uid y) k) as [Hy|Hy]; try reflexivity.
  rewrite Hx, Hy, str_le_refl in E. discriminate.
Qed.

Lemma sort_by_uid_stable k l :
  List.filter (fun e => String.eqb (entry_uid e) k) (sort_by_uid l)
  = List.filter (fun e => String.eqb (entry_uid e) k) l.
Proof.
  induction l as [|x l IH]; [reflexivity|].
  simpl sort_by_uid. rewrite insert_by_uid_stable. simpl. rewrite IH. reflexivity.
Qed.

Lemma strongly_sorted_filter {A} (R : A -> A -> Prop) p l :
  StronglySorted R l -> StronglySorted R (List.filter p l).
Proof.
  induction 1 as [|x l Hs IH Hx]; simpl; [constructor|].
  destruct (p x); [|exact IH].
  constructor; [exact IH|].
  apply List.Forall_forall. intros y Hy. apply filter_In in Hy as [Hy _].
  rewrite List.Forall_forall in Hx. auto.
Qed.

Lemma strongly_sorted_map {A B} (R : B -> B -> Prop) (f : A -> B) l :
  StronglySorted (fun a b => R (f a) (f b)) l -> StronglySorted R (map f l).
Proof.
  induction 1 as [|x l Hs IH Hx]; simpl; constructor; [exact IH|].
  apply List.Forall_forall. intros y Hy. apply in_map_iff in Hy as (z & <- & Hz).
  rewrite List.Forall_forall in Hx. auto.
Qed.

Lemma filter_surviving_cons uid name retired rest :
  List.filter surviving ((uid, name, retired) :: rest)
  = if is_blank name then List.filter surviving rest
    else (uid, name, retired) :: List.filter surviving rest.
Proof.
  cbn [List.filter]. unfold surviving at 1. cbn [entry_name fst snd].
  destruct (is_blank name); reflexivity.
Qed.

Lemma declarations_uids entries : forall seen,
  map snd (declarations seen entries) = map entry_uid (List.filter surviving entries).
Proof.
  induction entries as [|[[uid name] retired] rest IH]; intros seen; [reflexivity|].
  rewrite filter_surviving_cons. cbn [declarations].
  destruct (is_blank name); [apply IH|].
  cbn [map snd]. f_equal. apply IH.
Qed.

Lemma declared_uids_sorted l :
  StronglySorted lex_le (declared_uids (sort_by_uid l)).
Proof.
  unfold declared_uids. rewrite declarations_uids.
  apply strongly_sorted_map, strongly_sorted_filter, sort_by_uid_sorted.
Qed.

(* the loop and its reading as declarations agree *)
Lemma run_loop_lines entries : forall st,
  lines (fold_left loop_body entries st)
  = (lines st ++ body_lines (seen_names st) entries)%list.
Proof.
  induction entries as [|[[uid name] retired] rest IH]; intros st; simpl.
  - rewrite app_nil_r. reflexivity.
  - rewrite IH. destruct (is_blank name); simpl; [reflexivity|].
    rewrite <- !app_assoc. reflexivity.
Qed.

Lemma body_lines_declarations entries : forall seen,
  body_lines seen entries
  = List.concat (map (fun p => block (fst p) (snd p))
                   (combine (List.filter surviving entries) (declarations seen entries))).
Proof.
  induction entries as [|[[uid name] retired] rest IH]; intros seen; [reflexivity|].
  rewrite filter_surviving_cons. cbn [declarations body_lines].
  destruct (is_blank name); [apply IH|].
  cbn [combine map List.concat fst snd]. rewrite <- IH.
  unfold block. cbn [fst snd entry_name entry_retired].
  rewrite <- !app_assoc. reflexivity.
Qed.

Lemma file_lines_declarations header entries :
  file_lines header entries
  = (header
     ++ List.concat (map (fun p => block (fst p) (snd p))
                       (combine (List.filter surviving entries) (declarations ∅ entries)))
     ++ [")"; EmptyString])%list.
Proof.
  unfold file_lines, run_loop. rewrite run_loop_lines. simpl.
  rewrite body_lines_declarations, <- app_assoc. reflexivity.
Qed.

End UidConstFacts.

Module UidConstClaims.
Import Py UidConst StrOrder UidConstFacts.

(** C3 (amended): within each var block the declarations follow the uid in
    ascending order of the str comparison, character by character; the
    block holds the selected rows, reordered. Under this order the key
    1.2.10 comes before 1.2.9. *)
Theorem declared_uids_lexicographic (uids : list uid_row) :
  StronglySorted lex_le (declared_uids (transfer_syntaxes uids))
  /\ StronglySorted lex_le (declared_uids (sop_classes uids))
  /\ Permutation (transfer_syntaxes uids) (select_rows is_transfer_syntax uids)
  /\ Permutation (sop_classes uids) (select_rows is_sop_class uids)
  /\ lex_le "1.2.10" "1.2.9".
Proof.
  repeat split.
  - apply declared_uids_sorted.
  - apply declared_uids_sorted.
  - apply sort_by_uid_perm.
  - apply sort_by_uid_perm.
Qed.

(** C3, as stated, fails: the key whose third segment is 10 is declared
    before the key whose third segment is 9, against the dotted-numeric
    order. *)
Lemma segment_ten_declared_before_nine :
  declared_uids (transfer_syntaxes nine_and_ten) = ["1.2.10"; "1.2.9"]
  /\ dotted_le "1.2.10" "1.2.9" = false
  /\ dotted_le "1.2.9" "1.2.10" = true.
Proof. repeat split; vm_compute; reflexivity. Qed.

Lemma last_segment_1231 : last_segment "1.2.3.1" = "1".
Proof. reflexivity. Qed.

Lemma resolve_fresh seen uid name :
  seen !! to_go_constant_name name = None ->
  resolve_name seen uid name = to_go_constant_name name.
Proof. unfold resolve_name. intros ->. reflexivity. Qed.

Lemma resolve_taken seen uid name :
  is_Some (seen !! to_go_constant_name name) ->
  resolve_name seen uid name
  = String.append (to_go_constant_name name) (String.append "_" (last_segment uid)).
Proof. unfold resolve_name, last_segment. intros [v ->]. reflexivity. Qed.

Lemma colliding_pair n1 n2 r1 r2 :
  is_blank n1 = false -> is_blank n2 = false ->
  to_go_constant_name n1 = to_go_constant_name n2 ->
  declarations ∅ [("1.2.3", n1, r1); ("1.2.3.1", n2, r2)]
  = [ (to_go_constant_name n1, "1.2.3");
      (String.append (to_go_constant_name n1) "_1", "1.2.3.1") ].
Proof.
  intros B1 B2 E. cbn [declarations]. rewrite B1, B2.
  rewrite resolve_fresh by apply lookup_empty.
  rewrite resolve_taken by (rewrite <- E, lookup_insert_eq; eauto).
  rewrite last_segment_1231, <- E. reflexivity.
Qed.

Lemma last_segment_123 : last_segment "1.2.3" = "3".
Proof. reflexivity. Qed.

Lemma insert_has (m : gmap string string) k v k' :
  is_Some (m !! k') -> is_Some (<[k := v]> m !! k').
Proof.
  intros H. destruct (decide (k = k')) as [->|Hne].
  - rewrite lookup_insert_eq. eauto.
  - rewrite lookup_insert_ne by exact Hne. exact H.
Qed.

(* once the identifier is taken, every later entry that synthesizes it is
   declared with the last segment of its own key *)
Lemma declared_after_taken n1 n2 r1 r2 l : forall seen,
  to_go_constant_name n1 = to_go_constant_name n2 ->
  is_Some (seen !! to_go_constant_name n1) ->
  Forall2 (fun e d =>
             (e = ("1.2.3.1", n2, r2) ->
              d = (String.append (to_go_constant_name n1) "_1", "1.2.3.1"))
             /\ (e = ("1.2.3", n1, r1) ->
                 d = (to_go_constant_name n1, "1.2.3")
                 \/ d = (String.append (to_go_constant_name n1) "_3", "1.2.3")))
    (List.filter surviving l) (declarations seen l).
Proof.
  intros seen E. revert seen.
  induction l as [|[[uid name] retired] l IH]; intros seen Hs; [constructor|].
  rewrite filter_surviving_cons. cbn [declarations].
  destruct (is_blank name); [apply IH, Hs|].
  constructor; [|apply IH, insert_has, Hs].
  split; intros H; injection H as -> -> ->.
  - rewrite resolve_taken by (rewrite <- E; exact Hs).
    rewrite last_segment_1231, <- E. reflexivity.
  - right. rewrite resolve_taken by exact Hs. rewrite last_segment_123. reflexivity.
Qed.

Lemma declared_in_sorted n1 n2 r1 r2 l : forall seen,
  to_go_constant_name n1 = to_go_constant_name n2 ->
  is_blank n1 = false ->
  StronglySorted uid_le l -> In ("1.2.3", n1, r1) l ->
  Forall2 (fun e d =>
             (e = ("1.2.3.1", n2, r2) ->
              d = (String.append (to_go_constant_name n1) "_1", "1.2.3.1"))
             /\ (e = ("1.2.3", n1, r1) ->
                 d = (to_go_constant_name n1, "1.2.3")
                 \/ d = (String.append (to_go_constant_name n1) "_3", "1.2.3")))
    (List.filter surviving l) (declarations seen l).
Proof.
  intros seen E B1 Hs. revert seen.
  induction Hs as [|[[uid name] retired] l Hs IH Hall]; intros seen Hin; [destruct Hin|].
  rewrite filter_surviving_cons. cbn [declarations].
  destruct Hin as [Hhead|Htail].
  - injection Hhead as -> -> ->. rewrite B1.
    constructor.
    + split; intros H; [discriminate|].
      unfold resolve_name, last_segment. destruct (seen !! _); [right|left]; reflexivity.
    + apply declared_after_taken; [exact E|].
      unfold resolve_name. destruct (seen !! to_go_constant_name n1) eqn:Es.
      * apply insert_has. rewrite Es. eauto.
      * rewrite lookup_insert_eq. eauto.
  - destruct (is_blank name) eqn:B; [apply IH, Htail|].
    constructor; [|apply IH, Htail].
    rewrite List.Forall_forall in Hall. specialize (Hall _ Htail).
    unfold uid_le, lex_le in Hall. cbn [entry_uid fst] in Hall.
    split; intros H; injection H as -> -> ->.
    + vm_compute in Hall. discriminate.
    + unfold resolve_name, last_segment. destruct (seen !! _); [right|left]; reflexivity.
Qed.

(** C5 (amended): two entries of one file with non-blank names, the same
    synthesized identifier and the keys 1.2.3 and 1.2.3.1. In a file with
    only these two rows, in either order, the entry with key 1.2.3 is
    declared first and keeps the identifier unsuffixed, and the entry with
    key 1.2.3.1 is declared as the identifier followed by _1, the text
    after the last dot of its key. In a file with any other rows besides,
    the entry with key 1.2.3.1 is still declared with the suffix _1, and
    the entry with key 1.2.3 is declared unsuffixed or, when an entry
    sorted before it took the identifier, with the suffix _3. *)
Theorem colliding_pair_suffix (n1 n2 : string) (r1 r2 : bool) :
  is_blank n1 = false -> is_blank n2 = false ->
  to_go_constant_name n1 = to_go_constant_name n2 ->
  let c := to_go_constant_name n1 in
  let expected := [ (c, "1.2.3"); (String.append c "_1", "1.2.3.1") ] in
  declarations ∅ (transfer_syntaxes
                    [ ("1.2.3.1", n2, "TypeTransferSyntax", r2);
                      ("1.2.3", n1, "TypeTransferSyntax", r1) ]) = expected
  /\ declarations ∅ (transfer_syntaxes
                    [ ("1.2.3", n1, "TypeTransferSyntax", r1);
                      ("1.2.3.1", n2, "TypeTransferSyntax", r2) ]) = expected
  /\ declarations ∅ (sop_classes
                    [ ("1.2.3.1", n2, "TypeMetaSOPClass", r2);
                      ("1.2.3", n1, "TypeSOPClass", r1) ]) = expected
  /\ (forall entries : list uid_entry,
        In ("1.2.3", n1, r1) entries ->
        Forall2 (fun e d =>
                   (e = ("1.2.3.1", n2, r2) -> d = (String.append c "_1", "1.2.3.1"))
                   /\ (e = ("1.2.3", n1, r1) ->
                       d = (c, "1.2.3") \/ d = (String.append c "_3", "1.2.3")))
          (List.filter surviving (sort_by_uid entries))
          (declarations ∅ (sort_by_uid entries))).
Proof.
  intros B1 B2 E c expected. subst c expected.
  repeat split; try (apply colliding_pair; assumption).
  intros entries Hin. apply declared_in_sorted; [exact E | exact B1 | |].
  - apply sort_by_uid_sorted.
  - apply (Permutation_in _ (Permutation_sym (sort_by_uid_perm entries))), Hin.
Qed.

Lemma colliding_pair_suffix_witness :
  declarations ∅ (transfer_syntaxes storage_pair)
  = [ ("Storage", "1.2.3"); ("Storage_1", "1.2.3.1") ]
  /\ Forall2 (fun e d =>
                (e = ("1.2.3.1", "Storage", true) -> d = ("Storage_1", "1.2.3.1"))
                /\ (e = ("1.2.3", "Storage", false) ->
                    d = ("Storage", "1.2.3") \/ d = ("Storage_3", "1.2.3")))
       (List.filter surviving
          (sort_by_uid [("1.2.3.1", "Storage", true); ("1.2.3", "Storage", false);
                        ("1.2.10", "Storage", false)]))
       (declarations ∅
          (sort_by_uid [("1.2.3.1", "Storage", true); ("1.2.3", "Storage", false);
                        ("1.2.10", "Storage", false)])).
Proof.
  destruct (colliding_pair_suffix "Storage" "Storage" false true eq_refl eq_refl eq_refl)
    as (H1 & _ & _ & H4).
  split; [exact H1|].
  apply (H4 [("1.2.3.1", "Storage", true); ("1.2.3", "Storage", false);
             ("1.2.10", "Storage", false)]).
  right. left. reflexivity.
Defined.

(** C5, as stated, fails: the suffixes are none and _1, not _3 and _3_1. *)
Lemma colliding_pair_not_3_and_3_1 :
  declared_names (transfer_syntaxes storage_pair) = ["Storage"; "Storage_1"]
  /\ declared_names (transfer_syntaxes storage_pair) <> ["Storage_3"; "Storage_3_1"].
Proof. split; [vm_compute; reflexivity | vm_compute; discriminate]. Qed.

Lemma sub_special_blank s : forall in_run,
  sany is_word s = false -> sall is_space (sub_special in_run s) = true.
Proof.
  induction s as [|c s IH]; intros in_run H; [reflexivity|].
  cbn [sany] in H. apply orb_false_iff in H as [Hc Hs].
  cbn [sub_special]. rewrite Hc. cbn [orb].
  destruct (is_space c) eqn:Hsp.
  - cbn [sall]. rewrite Hsp. apply IH, Hs.
  - destruct in_run; [apply IH, Hs|].
    cbn [sall]. change (is_space " ") with true. apply IH, Hs.
Qed.

Lemma split_ws_blank s : sall is_space s = true -> split_ws s = [].
Proof.
  unfold split_ws. induction s as [|c s IH]; intros H; [reflexivity|].
  cbn [sall] in H. apply andb_true_iff in H as [Hc Hs].
  cbn [split_ws_go]. rewrite Hc. apply IH, Hs.
Qed.

Lemma no_word_name_empty name :
  sany is_word name = false -> to_go_constant_name name = EmptyString.
Proof.
  intros H. unfold to_go_constant_name.
  rewrite (split_ws_blank _ (sub_special_blank _ false H)). reflexivity.
Qed.

(** C10 (amended): an ASCII display name without any word character (no
    letter, no digit and no underscore) is synthesized to the empty
    identifier, so the digit-prefix rule does not fire. When such a name
    passes the blank-name filter it is declared with the empty identifier
    if no earlier entry of the file was, and with an underscore followed by
    the last segment of its key otherwise. *)
Theorem no_word_character_name (name : string) :
  ascii_text name = true -> sany is_word name = false ->
  to_go_constant_name name = EmptyString
  /\ (forall seen uid, seen !! EmptyString = None ->
        resolve_name seen uid name = EmptyString)
  /\ (forall seen uid, is_Some (seen !! EmptyString) ->
        resolve_name seen uid name = String.append "_" (last_segment uid))
  /\ (forall uid retired rest, is_blank name = false ->
        declarations ∅ ((uid, name, retired) :: rest)
        = (EmptyString, uid) :: declarations {[ EmptyString := uid ]} rest).
Proof.
  intros _ H. pose proof (no_word_name_empty _ H) as E.
  split; [exact E|]. split; [|split].
  - intros seen uid Hs. rewrite resolve_fresh; rewrite E; auto.
  - intros seen uid Hs. rewrite resolve_taken; rewrite E; auto.
  - intros uid retired rest B. cbn [declarations]. rewrite B.
    rewrite resolve_fresh; rewrite E; [reflexivity | apply lookup_empty].
Qed.

Lemma no_word_character_name_witness :
  to_go_constant_name "---" = EmptyString
  /\ declarations ∅ [("1.2.5", "---", false)] = [(EmptyString, "1.2.5")].
Proof.
  destruct (no_word_character_name "---") as (H1 & _ & _ & H4);
    [reflexivity | reflexivity |].
  split; [exact H1|]. apply (H4 "1.2.5" false []). reflexivity.
Defined.

(** C10, as stated, fails: an underscore is not alphanumeric, yet the name
    made of one underscore is synthesized to that underscore; and of two
    punctuation-only names in one file the second is declared as _6. *)
Lemma underscore_name_is_kept :
  sany is_alnum "_" = false
  /\ to_go_constant_name "_" = "_"
  /\ declared_names (transfer_syntaxes punctuation_rows) = [EmptyString; "_6"].
Proof. repeat split; vm_compute; reflexivity. Qed.

Lemma append_length a b :
  String.length (String.append a b) = (String.length a + String.length b)%nat.
Proof. induction a as [|c a IH]; simpl; [reflexivity|]. rewrite IH. reflexivity. Qed.






End UidConstClaims.

(** ** The UID registry *)

Module UidDefsFacts.
Import Py UidDefs TokenFacts.

Lemma split_unlimited_done s : forall cur,
  exists b, split_go ":" (Some O) 0 cur s = [b].
Proof.
  induction s as [|c s IH]; intros cur; cbn [split_go]; [eauto|].
  cbn [andb]. apply IH.
Qed.

(* a text holding a colon splits, at most once, into exactly two parts *)
Lemma split_max_colon s : forall cur,
  contains ":" s = true ->
  exists a b, split_go ":" (Some 1%nat) 0 cur s = [a; b].
Proof.
  induction s as [|c s IH]; intros cur H; [discriminate|].
  cbn [contains] in H. rewrite prefix_single in H.
  cbn [split_go]. rewrite prefix_single. cbn [andb].
  destruct (Ascii.eqb ":" c).
  - cbn [option_map Nat.pred String.length].
    destruct (split_unlimited_done s EmptyString) as [b ->]. eauto.
  - cbn [orb] in H. apply IH, H.
Qed.

(** C7: what the post-processing does with a name that holds both the
    retirement marker and a colon. The retirement flag is set, but the name
    stored last is the text before the first colon of the original name,
    from which the marker was not removed. *)
Theorem marker_kept_before_colon (attr : gmap string string) (name : string) :
  attr !! "UID Name" = Some name ->
  contains retired_marker name = true ->
  contains ":" name = true ->
  exists attr' p0 p1,
    split_max ":" 1 name = [p0; p1]
    /\ post_process attr = Ok attr'
    /\ attr' !! "Retired" = Some "Retired"
    /\ attr' !! "UID Name" = Some (strip p0)
    /\ attr' !! "UID Info" = Some (strip p1).
Proof.
  intros Hn Hm Hc.
  destruct (split_max_colon name EmptyString Hc) as (p0 & p1 & Hs).
  fold (split_max ":" 1 name) in Hs.
  unfold post_process, getitem. rewrite Hn. cbn [bind]. rewrite Hm, Hc, Hs.
  cbn [index nth_error bind].
  eexists _, p0, p1. split; [reflexivity|]. split; [reflexivity|].
  repeat split.
  - rewrite lookup_insert_ne by discriminate.
    rewrite lookup_insert_ne by discriminate.
    rewrite lookup_insert_ne by discriminate.
    apply lookup_insert_eq.
  - rewrite lookup_insert_ne by discriminate. apply lookup_insert_eq.
  - apply lookup_insert_eq.
Qed.

Lemma marker_kept_before_colon_witness :
  exists attr',
    post_process colon_row = Ok attr'
    /\ attr' !! "Retired" = Some "Retired"
    /\ attr' !! "UID Name" = Some "Storage (Retired)"
    /\ contains retired_marker "Storage (Retired)" = true.
Proof.
  destruct (marker_kept_before_colon colon_row "Storage (Retired): old")
    as (attr' & p0 & p1 & Hs & Hp & Hr & Hname & _);
    [reflexivity | reflexivity | reflexivity |].
  injection Hs as <- <-.
  exists attr'. repeat split; assumption || reflexivity.
Defined.

End UidDefsFacts.

(** ** Category text *)

Module CategoryClaims.
Import Py TagGen.

Lemma dict_get_default d k dflt :
  existsb (String.eqb k) (map fst d) = false -> dict_get d k dflt = dflt.
Proof.
  induction d as [|[k' v] d IH]; [reflexivity|].
  cbn [map fst existsb dict_get]. intros H.
  apply orb_false_iff in H as [Hk Hd].
  rewrite String.eqb_sym, Hk. apply IH, Hd.
Qed.

Lemma make_tag_with_vr e v t :
  make_tag e = Ok t -> exists t', make_tag (with_vr e v) = Ok t'.
Proof.
  unfold make_tag, resolvable, bind. cbn [e_id with_vr]. intros H.
  destruct (PyInt.int16 (take 4 (replace "x" "0" (e_id e)))); [|discriminate].
  destruct (PyInt.int16 (drop 4 (replace "x" "0" (e_id e)))); [|discriminate].
  eauto.
Qed.

Lemma tags_of_with_vr v attrs : forall tags,
  tags_of attrs = Ok tags ->
  exists tags', tags_of (map (fun e => with_vr e v) attrs) = Ok tags'.
Proof.
  induction attrs as [|e attrs IH]; intros tags H; [cbn; eauto|].
  cbn [map tags_of] in *.
  change (selected (with_vr e v)) with (selected e).
  destruct (selected e); [|eauto].
  unfold bind in *.
  destruct (make_tag e) as [t|] eqn:Et; [|discriminate].
  destruct (tags_of attrs) as [ts|]; [|discriminate].
  destruct (make_tag_with_vr e v t Et) as [t' ->].
  destruct (IH ts eq_refl) as [ts' ->]. eauto.
Qed.

(** C4 (amended): category text outside the known enumeration never fails
    a run. A representation text that is no key of vr_map is rendered as
    the default constant vr.Unknown, and a run that succeeds still succeeds
    when every representation text is replaced by it; a registry row is
    rendered with whatever type identifier sanitize_keyword builds from its
    type text. *)
Theorem unrecognized_category_is_not_an_error (v : string) :
  known_vr v = false ->
  vr_string_to_go_const v = "vr.Unknown"
  /\ (forall credits attrs tags file,
        tags_of attrs = Ok tags ->
        snd (main credits (Ok (map (fun e => with_vr e v) attrs)) file) = Ok tt)
  /\ (forall attr ty,
        UidDefs.complete attr ->
        exists line, UidDefs.uid_map_line (<["UID Type" := ty]> attr) = Ok line).
Proof.
  intros Hv. split; [|split].
  - apply dict_get_default, Hv.
  - intros credits attrs tags file H.
    destruct (tags_of_with_vr v attrs tags H) as [tags' E].
    unfold main, generate, read_tags_from_innolitics. cbn [bind].
    rewrite E. reflexivity.
  - intros attr ty ([uid Hu] & [n Hn] & _ & [r Hr]).
    unfold UidDefs.uid_map_line, UidDefs.getitem.
    rewrite lookup_insert_ne, Hu by discriminate. cbn [bind].
    rewrite lookup_insert_ne, Hn by discriminate. cbn [bind].
    rewrite lookup_insert_eq. cbn [bind].
    rewrite lookup_insert_ne, Hr by discriminate. cbn [bind].
    eauto.
Qed.

Lemma unrecognized_category_is_not_an_error_witness :
  vr_string_to_go_const "ZZ" = "vr.Unknown"
  /\ snd (main EmptyString (Ok [with_vr pixel_spacing "ZZ"]) None) = Ok tt.
Proof.
  destruct (unrecognized_category_is_not_an_error "ZZ") as (H1 & H2 & _);
    [reflexivity|].
  split; [exact H1|].
  eapply (H2 EmptyString [pixel_spacing]). reflexivity.
Defined.

(** C4, as stated, fails: the text ZZ is no key of vr_map, yet the run over
    a record carrying it ends normally and the text is rendered as
    vr.Unknown; a registry row of an unheard-of type is rendered too. *)
Lemma unknown_category_is_rendered :
  known_vr "ZZ" = false
  /\ vr_string_to_go_const "ZZ" = "vr.Unknown"
  /\ snd (main EmptyString (Ok [odd_vr_record]) None) = Ok tt
  /\ exists line, UidDefs.uid_map_line UidDefs.odd_type_row = Ok line
                  /\ contains "Type: TypeBrandNewKind," line = true.
Proof.
  repeat split. eexists. split; [vm_compute; reflexivity|]. vm_compute. reflexivity.
Qed.

End CategoryClaims.

(** ** Failed runs and the artifact *)

Module ArtifactFacts.
Import Py UidDefs.

Lemma dict_of_keys kvs : forall (m : gmap string string) k,
  In k (map fst kvs) \/ is_Some (m !! k) ->
  is_Some (fold_left (fun m kv => <[fst kv := snd kv]> m) kvs m !! k).
Proof.
  induction kvs as [|[k' v] kvs IH]; intros m k H; cbn [fold_left].
  - destruct H as [[]|H]. exact H.
  - apply IH. cbn [map fst snd In] in *.
    destruct (decide (k' = k)) as [->|Hne].
    + right. rewrite lookup_insert_eq. eauto.
    + destruct H as [[H|H]|H]; [contradiction | left; exact H |].
      right. rewrite lookup_insert_ne by exact Hne. exact H.
Qed.

Lemma map_fst_combine (l : list string) : forall l' : list string,
  (length l <= length l')%nat -> map fst (combine l l') = l.
Proof.
  induction l as [|x l IH]; intros [|y l'] H; cbn in *; try reflexivity; try lia.
  f_equal. apply IH. lia.
Qed.

Lemma pad_length n cells : (n <= length (pad n cells))%nat.
Proof. unfold pad. rewrite length_app, repeat_length. lia. Qed.

Lemma parse_row_keys labels row k :
  In k labels -> is_Some (parse_row labels row !! k).
Proof.
  intros H. unfold parse_row, dict_of. apply dict_of_keys. left.
  rewrite map_fst_combine by apply pad_length. exact H.
Qed.

Lemma parse_first_keys labels caption tables : forall rows,
  parse_first labels caption tables = Ok rows -> List.Forall (has_keys labels) rows.
Proof.
  induction tables as [|t tables IH]; intros rows H; cbn [parse_first] in H;
    [discriminate|].
  destruct (caption_is caption t); [|eauto].
  destruct (find (String.append BR "tbody") t) as [tbody|]; [|eauto].
  injection H as <-. apply List.Forall_forall. intros a Ha.
  apply in_map_iff in Ha as (row & <- & _). intros k Hk. apply parse_row_keys, Hk.
Qed.

Lemma for_each_forall (P Q : gmap string string -> Prop) f :
  (forall a a', P a -> f a = Ok a' -> Q a') ->
  forall attrs attrs', List.Forall P attrs -> for_each f attrs = Ok attrs' ->
  List.Forall Q attrs'.
Proof.
  intros Hf. induction attrs as [|a attrs IH]; intros attrs' HP H; cbn [for_each] in H.
  - injection H as <-. constructor.
  - inversion HP as [|? ? Pa Prest]; subst. unfold bind in H.
    destruct (f a) as [a'|] eqn:Ea; [|discriminate].
    destruct (for_each f attrs) as [rest'|] eqn:Er; [|discriminate].
    injection H as <-. constructor; eauto.
Qed.






























(** C1: what generate_tag_values.py does when a run fails. The artifact is
    opened for writing before anything is fetched, so after a failed
    retrieval, or a record that does not parse, tag_values.go exists and is
    empty, whatever it held before. *)
Theorem tag_values_failure_empties_artifact :
  (forall credits e file,
     TagGen.main credits (Raise e) file = (Some EmptyString, Raise e))
  /\ (forall credits,
        TagGen.main credits
          (Ok [TagGen.pixel_spacing; TagGen.with_id TagGen.pixel_spacing "0020XXXX"])
          (Some "old text")
        = (Some EmptyString, Raise ValueError)).
Proof. split; reflexivity. Qed.

End ArtifactFacts.

(** ** More on the identifier synthesizer *)

Module GoNameFacts.
Import Py UidConst.

Lemma sall_append p a b :
  sall p (String.append a b) = sall p a && sall p b.
Proof.
  induction a as [|c a IH]; [reflexivity|].
  change (String.append (String c a) b) with (String c (String.append a b)).
  cbn [sall]. rewrite IH, andb_assoc. reflexivity.
Qed.

Lemma sall_rev_string p s : forall acc,
  sall p (rev_string acc s) = sall p acc && sall p s.
Proof.
  induction s as [|c s IH]; intros acc; cbn [rev_string sall].
  - rewrite andb_true_r. reflexivity.
  - rewrite IH. cbn [sall]. destruct (p c), (sall p acc), (sall p s); reflexivity.
Qed.

Lemma sub_special_chars s : forall in_run,
  sall word_or_space (sub_special in_run s) = true.
Proof.
  induction s as [|c s IH]; intros in_run; cbn [sub_special]; [reflexivity|].
  destruct (is_word c || is_space c) eqn:E.
  - cbn [sall]. unfold word_or_space at 1. rewrite E. apply IH.
  - destruct in_run; [apply IH|]. cbn [sall]. rewrite IH. reflexivity.
Qed.

Lemma split_ws_words s : forall cur,
  sall word_or_space s = true -> sall is_word cur = true ->
  List.Forall (fun w => sall is_word w = true) (split_ws_go cur s).
Proof.
  induction s as [|c s IH]; intros cur Hs Hcur; cbn [split_ws_go].
  - destruct cur; repeat constructor.
    rewrite sall_rev_string. exact Hcur.
  - cbn [sall] in Hs. apply andb_true_iff in Hs as [Hc Hs].
    destruct (is_space c) eqn:Esp.
    + destruct cur as [|d cur'].
      * apply IH; [exact Hs | reflexivity].
      * constructor; [|apply IH; [exact Hs | reflexivity]].
        rewrite sall_rev_string. exact Hcur.
    + apply IH; [exact Hs|]. cbn [sall]. rewrite Hcur, andb_true_r.
      unfold word_or_space in Hc. rewrite Esp, orb_false_r in Hc. exact Hc.
Qed.

Lemma upper_char_word c : is_word c = true -> is_word (upper_char c) = true.
Proof. PyIntFacts.each_char c. Qed.

Lemma lower_char_word c : is_word c = true -> is_word (lower_char c) = true.
Proof. PyIntFacts.each_char c. Qed.

Lemma smap_word f s :
  (forall c, is_word c = true -> is_word (f c) = true) ->
  sall is_word s = true -> sall is_word (smap f s) = true.
Proof.
  intros Hf. induction s as [|c s IH]; cbn [smap sall]; [reflexivity|].
  intros H. apply andb_true_iff in H as [Hc Hs].
  rewrite (Hf c Hc). cbn [andb]. apply IH, Hs.
Qed.

Lemma convert_word_word w : sall is_word w = true -> sall is_word (convert_word w) = true.
Proof.
  intros H. unfold convert_word.
  destruct (in_set (lower w) acronyms).
  - apply smap_word; [apply upper_char_word | exact H].
  - destruct (isdigit (lower w)); [exact H|].
    destruct w as [|c w]; [reflexivity|]. cbn [capitalize sall] in *.
    apply andb_true_iff in H as [Hc Hw].
    rewrite (upper_char_word c Hc). cbn [andb].
    apply smap_word; [apply lower_char_word | exact Hw].
Qed.

Lemma concat_words ws :
  List.Forall (fun w => sall is_word w = true) ws ->
  sall is_word (concat_all (map convert_word ws)) = true.
Proof.
  induction 1 as [|w ws Hw _ IH]; [reflexivity|].
  cbn [map concat_all fold_right]. rewrite sall_append.
  rewrite (convert_word_word w Hw). exact IH.
Qed.

(** Extra: for an ASCII name, the synthesized identifier consists of word
    characters only (letters, digits, underscore) and does not start with a
    digit. *)
Theorem go_constant_name_is_identifier_text (name : string) :
  ascii_text name = true ->
  sall is_word (to_go_constant_name name) = true
  /\ starts_with_digit (to_go_constant_name name) = false.
Proof.
  intros _. unfold to_go_constant_name.
  pose proof (concat_words (split_ws (sub_special false name))
                (split_ws_words _ EmptyString (sub_special_chars name false) eq_refl)) as H.
  destruct (starts_with_digit (concat_all _)) eqn:E.
  - split; [|reflexivity]. rewrite sall_append, H. reflexivity.
  - split; [exact H | exact E].
Qed.

Lemma go_constant_name_is_identifier_text_witness :
  sall is_word (to_go_constant_name "12-lead ECG (Retired) / more") = true
  /\ starts_with_digit (to_go_constant_name "12-lead ECG (Retired) / more") = false.
Proof.
  apply (go_constant_name_is_identifier_text "12-lead ECG (Retired) / more").
  reflexivity.
Defined.

End GoNameFacts.

(** ** Splitting and joining *)

Module SplitFacts.
Import Py.

Lemma append_assoc a b c :
  String.append (String.append a b) c = String.append a (String.append b c).
Proof.
  induction a as [|x a IH]; [reflexivity|].
  change (String.append (String x a) b) with (String x (String.append a b)).
  change (String.append (String x (String.append a b)) c)
    with (String x (String.append (String.append a b) c)).
  rewrite IH. reflexivity.
Qed.

Lemma append_empty_r a : String.append a EmptyString = a.
Proof.
  induction a as [|x a IH]; [reflexivity|].
  change (String.append (String x a) EmptyString)
    with (String x (String.append a EmptyString)).
  rewrite IH. reflexivity.
Qed.

Lemma rev_string_acc s : forall acc,
  rev_string acc s = String.append (rev_string EmptyString s) acc.
Proof.
  induction s as [|c s IH]; intros acc; [reflexivity|].
  cbn [rev_string]. rewrite (IH (String c acc)), (IH (String c EmptyString)).
  rewrite append_assoc. reflexivity.
Qed.

Lemma prefix_split a : forall s,
  String.prefix a s = true -> exists rest, s = String.append a rest.
Proof.
  induction a as [|x a IH]; intros s H; [exists s; reflexivity|].
  destruct s as [|y s]; [discriminate|].
  cbn [String.prefix] in H. destruct (ascii_dec x y) as [->|]; [|discriminate].
  destruct (IH s H) as [rest ->]. exists rest. reflexivity.
Qed.

(* the characters of a matched separator are passed over *)
Lemma split_go_skip sep limit p : forall cur rest,
  split_go sep limit (String.length p) cur (String.append p rest)
  = split_go sep limit 0 cur rest.
Proof.
  induction p as [|x p IH]; intros cur rest.
  - destruct rest; reflexivity.
  - change (String.append (String x p) rest) with (String x (String.append p rest)).
    cbn [String.length split_go]. apply IH.
Qed.

Lemma split_go_nonempty sep limit s : forall skip cur,
  split_go sep limit skip cur s <> [].
Proof.
  induction s as [|c s IH]; intros skip cur; cbn [split_go]; [discriminate|].
  destruct skip; [|apply IH].
  destruct (_ && String.prefix sep (String c s)); [discriminate | apply IH].
Qed.

Lemma join_cons sep x l :
  l <> [] -> join sep (x :: l) = String.append x (String.append sep (join sep l)).
Proof. destruct l; [congruence | reflexivity]. Qed.

(* sep.join(s.split(sep)) == s, for a non-empty separator *)
Lemma join_split_go sep :
  sep <> EmptyString ->
  forall n s cur, (String.length s <= n)%nat ->
  join sep (split_go sep None 0 cur s)
  = String.append (rev_string EmptyString cur) s.
Proof.
  intros Hsep. induction n as [|n IH]; intros s cur Hn.
  - destruct s; [|cbn in Hn; lia]. cbn [split_go join]. rewrite append_empty_r. reflexivity.
  - destruct s as [|c s].
    { cbn [split_go join]. rewrite append_empty_r. reflexivity. }
    cbn [split_go]. cbn [andb].
    destruct (String.prefix sep (String c s)) eqn:Ep.
    + destruct (prefix_split _ _ Ep) as [rest E].
      destruct sep as [|x sep']; [congruence|].
      change (String.append (String x sep') rest)
        with (String x (String.append sep' rest)) in E.
      injection E as -> ->.
      cbn [option_map String.length Nat.pred].
      rewrite split_go_skip.
      rewrite join_cons by apply split_go_nonempty.
      rewrite IH.
      * reflexivity.
      * cbn in Hn. rewrite UidConstClaims.append_length in Hn. lia.
    + rewrite IH by (cbn in Hn; lia).
      cbn [rev_string]. rewrite (rev_string_acc cur (String c EmptyString)).
      rewrite append_assoc. reflexivity.
Qed.

Lemma join_split sep s :
  sep <> EmptyString -> join sep (split_sep sep s) = s.
Proof.
  intros H. unfold split_sep.
  rewrite (join_split_go sep H (String.length s)) by lia. reflexivity.
Qed.

End SplitFacts.

(** ** More on the tag pipeline *)

Module TagMore.
Import Py PyInt PyIntFacts TagGen TagFacts SplitFacts.

Lemma lower_f c : lower_char c = "f"%char -> c = "f"%char \/ c = "F"%char.
Proof. each_char c; intros; auto. Qed.

Lemma lower_e c : lower_char c = "e"%char -> c = "e"%char \/ c = "E"%char.
Proof. each_char c; intros; auto. Qed.

(* the converse of int16_fffe *)
Lemma fffe_is_item_group s : lower s = "fffe" -> int16 s = Ok 65534.
Proof.
  destruct s as [|c1 [|c2 [|c3 [|c4 [|c5 s]]]]]; try discriminate.
  unfold lower. cbn [smap]. intros H. injection H as H1 H2 H3 H4.
  destruct (lower_f _ H1) as [-> | ->], (lower_f _ H2) as [-> | ->],
    (lower_f _ H3) as [-> | ->], (lower_e _ H4) as [-> | ->]; reflexivity.
Qed.

(** Extra: the representation list of a tag is never empty, and unless the
    group is the item group 0xFFFE, joining the list with the separator
    [ or ] gives back the record's valueRepresentation text. *)
Theorem vr_list_joins_back (e : RawAttr) (t : Tag) :
  make_tag e = Ok t ->
  vr t <> []
  /\ (group t <> 65534 ->
      join allowed_vrs_separator (vr t) = e_valueRepresentation e).
Proof.
  intros H. apply make_tag_ok in H as (Hg & _ & Hvr & _).
  rewrite Hvr. split; [apply split_go_nonempty|].
  intros Hne.
  destruct (String.eqb_spec (lower (take 4 (resolvable e))) "fffe") as [E|E].
  - apply fffe_is_item_group in E. rewrite E in Hg. injection Hg as Hg. congruence.
  - cbn [negb]. apply join_split. discriminate.
Qed.

Lemma vr_list_joins_back_witness :
  exists t, make_tag (with_vr pixel_spacing "US or SS") = Ok t
            /\ vr t = ["US"; "SS"]
            /\ join allowed_vrs_separator (vr t) = "US or SS".
Proof.
  eexists. split; [reflexivity|]. split; [reflexivity|].
  apply (vr_list_joins_back (with_vr pixel_spacing "US or SS"));
    [reflexivity | discriminate].
Defined.

Lemma int16_raises s e : int16 s = Raise e -> e = ValueError.
Proof.
  unfold int16. destruct (strip_sign (skip_cspace s)) as [sign s2].
  destruct (strip_prefix16 s2) as [|c r]; [congruence|].
  destruct (digit_value c <? 16); [|congruence].
  destruct (digits16 false 0 (String c r)) as [[v rest]|]; [|congruence].
  destruct (skip_cspace rest); congruence.
Qed.

Lemma make_tag_raises r e : make_tag r = Raise e -> e = ValueError.
Proof.
  unfold make_tag, bind. intros H.
  destruct (int16 (take 4 (resolvable r))) eqn:E1;
    [|injection H as <-; exact (int16_raises _ _ E1)].
  destruct (int16 (drop 4 (resolvable r))) eqn:E2;
    [discriminate | injection H as <-; exact (int16_raises _ _ E2)].
Qed.

(** Extra: for records that hold the six fields as texts, reading them
    fails exactly when some record that passes the filter has an id of
    which int() cannot read the first four characters, or the rest, once
    every x is written as 0; a record that is filtered out never fails the
    run, whatever its id. *)
Theorem tags_of_fails_iff_bad_selected_id (attrs : list RawAttr) :
  (exists e, tags_of attrs = Raise e)
  <-> List.Exists (fun r =>
        selected r = true
        /\ ((forall v, int16 (take 4 (resolvable r)) <> Ok v)
            \/ (forall v, int16 (drop 4 (resolvable r)) <> Ok v))) attrs.
Proof.
  assert (Hm : forall r, (exists e, make_tag r = Raise e)
                         <-> (forall v, int16 (take 4 (resolvable r)) <> Ok v)
                             \/ (forall v, int16 (drop 4 (resolvable r)) <> Ok v)).
  { intros r. unfold make_tag, bind.
    destruct (int16 (take 4 (resolvable r))) as [g|e1].
    - destruct (int16 (drop 4 (resolvable r))) as [el|e2].
      + split; [intros [e H]; discriminate|].
        intros [H|H]; [destruct (H g) | destruct (H el)]; reflexivity.
      + split; [intros _; right; discriminate | eauto].
    - split; [intros _; left; discriminate | eauto]. }
  induction attrs as [|r attrs IH].
  - split; [intros [e H]; discriminate | intros H; inversion H].
  - cbn [tags_of]. destruct (selected r) eqn:Es.
    + destruct (make_tag r) as [t|e0] eqn:Et; cbn [bind].
      * destruct (tags_of attrs) as [ts|e1]; cbn [bind].
        -- split; [intros [e H]; discriminate|].
           intros H. inversion H as [? ? [_ Hb]|? ? Hrest]; subst.
           ++ apply Hm in Hb as [e Hb]. congruence.
           ++ apply IH in Hrest as [e Hrest]. discriminate.
        -- split; [|eauto]. intros _. right. apply IH. eauto.
      * split; [|eauto]. intros _. left. split; [exact Es|]. apply Hm. eauto.
    + rewrite IH. split; intros H.
      * right. exact H.
      * inversion H as [? ? [Hs _]|? ? Hrest]; subst; [congruence | exact Hrest].
Qed.

End TagMore.

(** ** Coordinates, read and written *)

Module HexFacts.
Import Py PyInt PyIntFacts PyIntFacts2 TagGen TagFacts TokenFacts.

(* every number below 65536, by evaluation *)
Lemma format4_table_holds :
  forallb (fun d1 => forallb (fun d2 => forallb (fun d3 =>
    forallb (fun d4 => format4_agrees d1 d2 d3 d4) sixteen) sixteen) sixteen) sixteen
  = true.
Proof. vm_compute. reflexivity. Qed.

Lemma in_sixteen d : 0 <= d < 16 -> In d sixteen.
Proof.
  intros H. unfold sixteen. apply in_map_iff. exists (Z.to_nat d).
  split; [lia|]. apply in_seq. lia.
Qed.

Lemma format4_digits d1 d2 d3 d4 :
  0 <= d1 < 16 -> 0 <= d2 < 16 -> 0 <= d3 < 16 -> 0 <= d4 < 16 ->
  format_0x 4 (((d1 * 16 + d2) * 16 + d3) * 16 + d4) = four_digits d1 d2 d3 d4.
Proof.
  intros H1 H2 H3 H4.
  pose proof (proj1 (List.forallb_forall _ _) format4_table_holds d1 (in_sixteen d1 H1)) as T1.
  pose proof (proj1 (List.forallb_forall _ _) T1 d2 (in_sixteen d2 H2)) as T2.
  pose proof (proj1 (List.forallb_forall _ _) T2 d3 (in_sixteen d3 H3)) as T3.
  pose proof (proj1 (List.forallb_forall _ _) T3 d4 (in_sixteen d4 H4)) as T4.
  apply String.eqb_eq. exact T4.
Qed.

Lemma hex_char_digit c : is_hex c = true -> hex_char (digit_value c) = lower_char c.
Proof. each_char c. Qed.

Lemma hex_digit_range c : is_hex c = true -> 0 <= digit_value c < 16.
Proof.
  intros H. pose proof (digit_value_nonneg c). unfold is_hex in H. lia.
Qed.

(* four hexadecimal digits, read and written back, are the digits in lowercase *)
Lemma format4_hexval s :
  sall is_hex s = true -> String.length s = 4%nat ->
  format_0x 4 (hexval 0 s) = lower s.
Proof.
  intros Hh Hl.
  destruct s as [|c1 [|c2 [|c3 [|c4 [|c5 s]]]]]; try discriminate.
  cbn [sall] in Hh. repeat (apply andb_true_iff in Hh as [? Hh]).
  cbn [hexval]. rewrite Z.mul_0_l, Z.add_0_l.
  rewrite format4_digits by (apply hex_digit_range; assumption).
  unfold four_digits, lower. cbn [smap].
  rewrite !hex_char_digit by assumption. reflexivity.
Qed.

(** Extra: for a record whose id is a valid token (eight characters,
    hexadecimal digits or the placeholder x), the declaration line spells
    the coordinates as the two halves of the id, in lowercase and with 0
    for every placeholder: reading the halves with int and writing them
    with the format 04x gives the digits back. *)
Theorem declaration_spells_the_id (e : RawAttr) (t : Tag) :
  valid_token "x" (e_id e) = true ->
  make_tag e = Ok t ->
  var_line t
  = cat [ "var "; e_keyword e; " = New(0x"; lower (take 4 (zeroed (e_id e)));
          ", 0x"; lower (drop 4 (zeroed (e_id e))); ")" ].
Proof.
  intros Hv Ht.
  apply make_tag_ok in Ht as (Hg & He & _ & Hk).
  unfold resolvable in Hg, He. rewrite replace_x_zeroed in Hg, He.
  unfold valid_token in Hv. apply andb_true_iff in Hv as [Hl Hc].
  apply Nat.eqb_eq in Hl. apply zeroed_hex in Hc.
  assert (Hl' : String.length (zeroed (e_id e)) = 8%nat)
    by (unfold zeroed; rewrite smap_length; exact Hl).
  destruct (take_drop_length _ Hl') as [Hlt Hld].
  pose proof (sall_take _ 4 _ Hc) as Hht. pose proof (sall_drop _ 4 _ Hc) as Hhd.
  destruct (int16_four _ Hht Hlt) as [Eg _]. destruct (int16_four _ Hhd Hld) as [Ee _].
  assert (Hg' : group t = hexval 0 (take 4 (zeroed (e_id e)))) by congruence.
  assert (He' : elem t = hexval 0 (drop 4 (zeroed (e_id e)))) by congruence.
  unfold var_line. rewrite Hg', He', Hk.
  rewrite (format4_hexval _ Hht Hlt), (format4_hexval _ Hhd Hld). reflexivity.
Qed.

Lemma declaration_spells_the_id_witness :
  exists t, make_tag (with_id pixel_spacing "60xxAb1F") = Ok t
            /\ var_line t = "var PixelSpacing = New(0x6000, 0xab1f)".
Proof.
  eexists. split; [reflexivity|].
  apply (declaration_spells_the_id (with_id pixel_spacing "60xxAb1F")); reflexivity.
Defined.

End HexFacts.

(** ** Reading the tables *)

Module TableFacts.
Import Py UidDefs ArtifactFacts UidDefsFacts.

Lemma parse_first_usable labels caption tables :
  match List.find (usable caption) tables with
  | Some table =>
      exists tbody, find (String.append BR "tbody") table = Some tbody
        /\ parse_first labels caption tables
           = Ok (map (parse_row labels) (iter (String.append BR "tr") tbody))
  | None => parse_first labels caption tables = Raise ValueError
  end.
Proof.
  induction tables as [|t tables IH]; cbn [List.find parse_first]; [reflexivity|].
  unfold usable at 1.
  destruct (caption_is caption t); cbn [andb]; [|exact IH].
  destruct (find (String.append BR "tbody") t) as [tbody|] eqn:E; [|exact IH].
  exists tbody. split; [exact E|reflexivity].
Qed.

(** Extra: parse_table reads the first table, in document order, that has
    the caption and a body; a table with the caption and no body is passed
    over, and ValueError is raised only when no table has both. *)
Theorem parse_table_reads_first_usable (root : element) (labels : list string)
    (caption : string) :
  match List.find (usable caption) (iter (String.append BR "table") root) with
  | Some table =>
      exists tbody, find (String.append BR "tbody") table = Some tbody
        /\ parse_table root labels caption
           = Ok (map (parse_row labels) (iter (String.append BR "tr") tbody))
  | None => parse_table root labels caption = Raise ValueError
  end.
Proof. unfold parse_table. apply parse_first_usable. Qed.

Lemma fold_insert_other kvs : forall (m : gmap string string) k,
  ~ In k (map fst kvs) ->
  fold_left (fun m kv => <[fst kv := snd kv]> m) kvs m !! k = m !! k.
Proof.
  induction kvs as [|[k' v] kvs IH]; intros m k H; cbn [fold_left]; [reflexivity|].
  cbn [map fst snd In] in *. rewrite IH by tauto.
  apply lookup_insert_ne. intros ->. tauto.
Qed.

Lemma fold_insert_nth kvs : forall (m : gmap string string) i k v,
  List.NoDup (map fst kvs) -> nth_error kvs i = Some (k, v) ->
  fold_left (fun m kv => <[fst kv := snd kv]> m) kvs m !! k = Some v.
Proof.
  induction kvs as [|[k' v'] kvs IH]; intros m i k v Hn Hi.
  - destruct i; discriminate.
  - cbn [map fst] in Hn. inversion Hn as [|? ? Hnot Hrest]; subst.
    cbn [fold_left fst snd]. destruct i as [|i]; cbn [nth_error] in Hi.
    + injection Hi as -> ->. rewrite fold_insert_other by exact Hnot.
      apply lookup_insert_eq.
    + eapply IH; eassumption.
Qed.

Lemma nth_error_combine (l : list string) : forall (l' : list string) i k,
  (length l <= length l')%nat -> nth_error l i = Some k ->
  nth_error (combine l l') i = Some (k, nth i l' EmptyString).
Proof.
  induction l as [|x l IH]; intros [|y l'] i k Hl Hi; cbn in *;
    try (destruct i; discriminate); try lia.
  destruct i as [|i]; cbn in *; [congruence|]. apply IH; [lia|exact Hi].
Qed.

Lemma nth_pad n cells i : nth i (pad n cells) EmptyString = nth i cells EmptyString.
Proof.
  unfold pad. destruct (Nat.lt_ge_cases i (length cells)) as [H|H].
  - apply app_nth1, H.
  - rewrite app_nth2 by exact H. rewrite (nth_overflow cells) by exact H.
    apply nth_repeat.
Qed.

(** Extra: parse_row pairs the labels with the cells by position. With
    distinct labels, the label at position i is mapped to the text of the
    i-th cell, or to the empty text when the row has fewer cells; cells
    beyond the labels are dropped and no other key is stored. *)
Theorem parse_row_pairs_by_position (labels : list string) (row : element) :
  List.NoDup labels ->
  (forall i k, nth_error labels i = Some k ->
     parse_row labels row !! k
     = Some (nth i (map cell_value (iter (String.append BR "para") row)) EmptyString))
  /\ (forall k, ~ In k labels -> parse_row labels row !! k = None).
Proof.
  intros Hn. unfold parse_row, dict_of.
  set (cells := map cell_value (iter (String.append BR "para") row)).
  assert (Hf : map fst (combine labels (pad (length labels) cells)) = labels)
    by (apply map_fst_combine, pad_length).
  split.
  - intros i k Hi. rewrite <- (nth_pad (length labels) cells i).
    apply (fold_insert_nth _ _ i).
    + rewrite Hf. exact Hn.
    + apply nth_error_combine; [apply pad_length|exact Hi].
  - intros k Hk. rewrite fold_insert_other by (rewrite Hf; exact Hk).
    apply lookup_empty.
Qed.

Lemma parse_row_pairs_by_position_witness :
  parse_row uid_values_labels short_row !! "UID Name" = Some "Verification"
  /\ parse_row uid_values_labels short_row !! "Retired" = Some EmptyString
  /\ parse_row ["UID Value"] short_row !! "UID Name" = None.
Proof.
  assert (Hn : List.NoDup uid_values_labels)
    by (repeat constructor; cbn; intuition discriminate).
  assert (Hn1 : List.NoDup ["UID Value"])
    by (repeat constructor; cbn; intuition discriminate).
  destruct (parse_row_pairs_by_position uid_values_labels short_row) as [H _];
    [exact Hn|].
  destruct (parse_row_pairs_by_position ["UID Value"] short_row) as [_ H'];
    [exact Hn1|].
  split; [exact (H 1%nat "UID Name" eq_refl)|].
  split; [exact (H 5%nat "Retired" eq_refl)|].
  apply H'. cbn. intros [E|[]]. discriminate.
Defined.

Lemma for_each_total (P : gmap string string -> Prop) f :
  (forall a, P a -> exists a', f a = Ok a') ->
  forall attrs, List.Forall P attrs -> exists attrs', for_each f attrs = Ok attrs'.
Proof.
  intros Hf. induction 1 as [|a l Pa _ [rest IH]]; cbn [for_each]; [eauto|].
  destruct (Hf a Pa) as [a' ->]. cbn [bind]. rewrite IH. cbn [bind]. eauto.
Qed.

(* neither subscript of the post-processing can fail on a row with a name *)
Lemma post_process_total attr :
  is_Some (attr !! "UID Name") -> exists attr', post_process attr = Ok attr'.
Proof.
  intros [name Hn]. unfold post_process, getitem. rewrite Hn. cbn [bind].
  destruct (contains ":" name) eqn:Hc; [|eauto].
  unfold split_max.
  destruct (split_max_colon name EmptyString Hc) as (a & b & ->).
  cbn [index nth_error bind]. eauto.
Qed.

Lemma post_process_frame_total attr :
  is_Some (attr !! "Normative Reference") -> exists attr', post_process_frame attr = Ok attr'.
Proof.
  intros [v Hv]. unfold post_process_frame, delitem.
  rewrite !lookup_insert_ne by discriminate. rewrite Hv. eauto.
Qed.

Lemma parse_table_raises root labels caption e :
  parse_table root labels caption = Raise e ->
  e = ValueError
  /\ List.find (usable caption) (iter (String.append BR "table") root) = None.
Proof.
  unfold parse_table. intros H.
  pose proof (parse_first_usable labels caption (iter (String.append BR "table") root)) as T.
  destruct (List.find _ _) as [t|].
  - destruct T as (tbody & _ & T). congruence.
  - split; [congruence|reflexivity].
Qed.

(** Extra: the two table parsers fail in one way only. Each raises
    ValueError, and does so exactly when the document has no table with
    its caption and a body; the post-processing of the rows (the name and
    colon subscripts, the deletion of the Normative Reference key) never
    raises on rows that parse_row built. *)
Theorem table_parsers_fail_only_without_table (root : element) (e : exn) :
  (parse_uid_values_table root = Raise e <->
     e = ValueError
     /\ List.find (usable "UID Values") (iter (String.append BR "table") root) = None)
  /\ (parse_frames_of_reference_table root = Raise e <->
       e = ValueError
       /\ List.find (usable "Well-known Frames of Reference")
            (iter (String.append BR "table") root) = None).
Proof.
  split; split.
  - unfold parse_uid_values_table. intros H.
    destruct (parse_table root uid_values_labels "UID Values") as [rows|e'] eqn:E.
    + cbn [bind] in H. apply parse_first_keys in E.
      destruct (for_each_total (has_keys uid_values_labels) post_process) with (attrs := rows)
        as [r Hr]; [|exact E|congruence].
      intros a Ha. apply post_process_total, Ha. cbn. tauto.
    + cbn [bind] in H. injection H as <-. eapply parse_table_raises, E.
  - intros [-> Hf]. unfold parse_uid_values_table.
    pose proof (parse_first_usable uid_values_labels "UID Values"
                  (iter (String.append BR "table") root)) as T.
    rewrite Hf in T. unfold parse_table. rewrite T. reflexivity.
  - unfold parse_frames_of_reference_table. intros H.
    destruct (parse_table root frames_labels "Well-known Frames of Reference")
      as [rows|e'] eqn:E.
    + cbn [bind] in H. apply parse_first_keys in E.
      destruct (for_each_total (has_keys frames_labels) post_process_frame) with (attrs := rows)
        as [r Hr]; [|exact E|congruence].
      intros a Ha. apply post_process_frame_total, Ha. cbn. tauto.
    + cbn [bind] in H. injection H as <-. eapply parse_table_raises, E.
  - intros [-> Hf]. unfold parse_frames_of_reference_table.
    pose proof (parse_first_usable frames_labels "Well-known Frames of Reference"
                  (iter (String.append BR "table") root)) as T.
    rewrite Hf in T. unfold parse_table. rewrite T. reflexivity.
Qed.

Lemma dom_fold_insert kvs : forall m : gmap string string,
  dom (fold_left (fun m kv => <[fst kv := snd kv]> m) kvs m)
  =@{gset string} list_to_set (map fst kvs) ∪ dom m.
Proof.
  induction kvs as [|[k v] kvs IH]; intros m; cbn [fold_left map fst snd list_to_set].
  - rewrite (left_id_L ∅ (∪)). reflexivity.
  - rewrite IH, dom_insert_L.
    rewrite (assoc_L (∪)), (comm_L (∪) _ {[k]}). reflexivity.
Qed.

Lemma dom_parse_row labels row :
  dom (parse_row labels row) =@{gset string} list_to_set labels.
Proof.
  unfold parse_row, dict_of. rewrite dom_fold_insert.
  rewrite map_fst_combine by apply pad_length.
  rewrite dom_empty_L, (right_id_L ∅ (∪)). reflexivity.
Qed.

Lemma parse_first_dom labels caption tables : forall rows,
  parse_first labels caption tables = Ok rows ->
  List.Forall (fun r => dom r =@{gset string} list_to_set labels) rows.
Proof.
  induction tables as [|t tables IH]; intros rows H; cbn [parse_first] in H;
    [discriminate|].
  destruct (caption_is caption t); [|eauto].
  destruct (find (String.append BR "tbody") t) as [tbody|]; [|eauto].
  injection H as <-. apply List.Forall_forall. intros a Ha.
  apply in_map_iff in Ha as (row & <- & _). apply dom_parse_row.
Qed.

Lemma post_process_dom attr attr' :
  dom attr =@{gset string} list_to_set uid_values_labels ->
  post_process attr = Ok attr' ->
  dom attr' =@{gset string} list_to_set uid_values_labels.
Proof.
  unfold post_process, getitem, bind. intros Hd H.
  destruct (attr !! "UID Name") as [name|]; [|discriminate].
  destruct (contains retired_marker name), (contains ":" name);
    repeat match type of H with
    | context [index ?l ?i] => destruct (index l i); [|discriminate]
    end;
    injection H as <-; rewrite ?dom_insert_L, Hd; cbn [list_to_set uid_values_labels];
    set_solver.
Qed.

Lemma post_process_frame_shape attr attr' :
  dom attr =@{gset string} list_to_set frames_labels ->
  post_process_frame attr = Ok attr' ->
  attr' !! "UID Type" = Some "Well-known frame of reference"
  /\ attr' !! "UID Info" = Some EmptyString
  /\ attr' !! "Retired" = Some EmptyString
  /\ attr' !! "Normative Reference" = None
  /\ dom attr' =@{gset string} list_to_set uid_values_labels.
Proof.
  unfold post_process_frame, delitem. intros Hd H.
  match type of H with
  | context [match ?m !! ?k with _ => _ end] => destruct (m !! k); [|discriminate]
  end.
  injection H as <-.
  repeat split.
  - rewrite lookup_delete_ne by discriminate.
    rewrite !lookup_insert_ne by discriminate. apply lookup_insert_eq.
  - rewrite lookup_delete_ne by discriminate.
    rewrite lookup_insert_ne by discriminate. apply lookup_insert_eq.
  - rewrite lookup_delete_ne by discriminate. apply lookup_insert_eq.
  - apply lookup_delete_eq.
  - rewrite dom_delete_L, !dom_insert_L, Hd.
    cbn [list_to_set uid_values_labels frames_labels].
    apply set_eq. intros k. rewrite !elem_of_difference, !elem_of_union, !elem_of_singleton.
    rewrite elem_of_empty.
    split.
    + intros [H Hne]. intuition (subst; try tauto).
    + intros H. split; [tauto|]. intros ->. intuition discriminate.
Qed.

(** Extra: every row that parse_frames_of_reference_table returns has the
    type Well-known frame of reference, an empty information text and an
    empty retirement flag, has lost the Normative Reference column, and
    holds exactly the six keys of a row of the UID values table. *)
Theorem frame_rows_have_the_registry_shape (root : element)
    (rows : list (gmap string string)) :
  parse_frames_of_reference_table root = Ok rows ->
  List.Forall (fun r =>
    r !! "UID Type" = Some "Well-known frame of reference"
    /\ r !! "UID Info" = Some EmptyString
    /\ r !! "Retired" = Some EmptyString
    /\ r !! "Normative Reference" = None
    /\ dom r =@{gset string} list_to_set uid_values_labels) rows.
Proof.
  unfold parse_frames_of_reference_table, parse_table, bind. intros H.
  destruct (parse_first _ _ _) as [parsed|] eqn:E; [|discriminate].
  apply parse_first_dom in E.
  eapply for_each_forall; [|exact E|exact H].
  intros a a'. apply post_process_frame_shape.
Qed.

Lemma frame_rows_have_the_registry_shape_witness :
  exists rows,
    parse_frames_of_reference_table small_document = Ok rows
    /\ length rows = 1%nat
    /\ List.Forall (fun r =>
         r !! "UID Type" = Some "Well-known frame of reference"
         /\ r !! "UID Info" = Some EmptyString
         /\ r !! "Retired" = Some EmptyString
         /\ r !! "Normative Reference" = None
         /\ dom r =@{gset string} list_to_set uid_values_labels) rows.
Proof.
  assert (Hlen : match parse_frames_of_reference_table small_document with
                 | Ok rows => length rows
                 | Raise _ => 0%nat
                 end = 1%nat) by (vm_compute; reflexivity).
  destruct (parse_frames_of_reference_table small_document) as [rows|e] eqn:E;
    [|discriminate Hlen].
  exists rows. split; [reflexivity|]. split; [exact Hlen|].
  exact (frame_rows_have_the_registry_shape small_document rows E).
Defined.

Lemma clean_up_dom attr attr' :
  dom attr =@{gset string} list_to_set uid_values_labels ->
  clean_up attr = Ok attr' ->
  dom attr' =@{gset string} list_to_set uid_values_labels.
Proof.
  unfold clean_up, getitem, bind. intros Hd H.
  destruct (attr !! "UID Name") as [n|]; [|discriminate].
  match type of H with
  | context [match ?m !! ?k with _ => _ end] => destruct (m !! k); [|discriminate]
  end.
  injection H as <-. rewrite !dom_insert_L, Hd. cbn [list_to_set uid_values_labels].
  set_solver.
Qed.

(** Extra: the rows of the two tables are given one shape before they are
    concatenated: every row that load returns holds exactly the six keys
    UID Value, UID Name, UID Keyword, UID Type, UID Info and Retired. *)
Theorem loaded_rows_have_the_six_keys (src : xml_source)
    (rows : list (gmap string string)) :
  load src = Ok rows ->
  List.Forall (fun r => dom r =@{gset string} list_to_set uid_values_labels) rows.
Proof.
  unfold load, bind. intros H.
  destruct (get_root src) as [root|]; [|discriminate].
  destruct (parse_uid_values_table root) as [uv|] eqn:Eu; [|discriminate].
  destruct (parse_frames_of_reference_table root) as [fr|] eqn:Ef; [|discriminate].
  eapply for_each_forall; [|apply Forall_app|exact H].
  - intros a a'. apply clean_up_dom.
  - split.
    + unfold parse_uid_values_table, parse_table, bind in Eu.
      destruct (parse_first _ _ _) as [parsed|] eqn:E; [|discriminate].
      apply parse_first_dom in E.
      eapply for_each_forall; [|exact E|exact Eu].
      intros a a'. apply post_process_dom.
    + unfold parse_frames_of_reference_table, parse_table, bind in Ef.
      destruct (parse_first _ _ _) as [parsed|] eqn:E; [|discriminate].
      apply parse_first_dom in E.
      eapply for_each_forall; [|exact E|exact Ef].
      intros a a' Ha Hp. apply (post_process_frame_shape a a' Ha Hp).
Qed.

Lemma loaded_rows_have_the_six_keys_witness :
  exists rows,
    load (Download (Ok small_document)) = Ok rows
    /\ length rows = 2%nat
    /\ List.Forall (fun r => dom r =@{gset string} list_to_set uid_values_labels) rows.
Proof.
  assert (Hlen : match load (Download (Ok small_document)) with
                 | Ok rows => length rows
                 | Raise _ => 0%nat
                 end = 2%nat) by (vm_compute; reflexivity).
  destruct (load (Download (Ok small_document))) as [rows|e] eqn:E;
    [|discriminate Hlen].
  exists rows. split; [reflexivity|]. split; [exact Hlen|].
  exact (loaded_rows_have_the_six_keys (Download (Ok small_document)) rows E).
Defined.
End TableFacts.

(** ** Category keywords *)

Module KeywordFacts.
Import Py UidDefs TokenFacts GoNameFacts.

Lemma re_split_pieces s : forall in_run cur,
  no_separator cur = true ->
  List.Forall (fun w => no_separator w = true) (re_split_go in_run cur s).
Proof.
  unfold no_separator.
  induction s as [|c s IH]; intros in_run cur Hcur; cbn [re_split_go].
  - repeat constructor. rewrite sall_rev_string. exact Hcur.
  - destruct (is_separator c) eqn:E.
    + destruct in_run; [apply IH, Hcur|].
      constructor; [|apply IH; reflexivity].
      rewrite sall_rev_string. exact Hcur.
    + apply IH. cbn [sall]. rewrite E, Hcur. reflexivity.
Qed.

Lemma upper_char_separator c : is_separator (upper_char c) = is_separator c.
Proof. PyIntFacts.each_char c. Qed.

Lemma lower_char_separator c : is_separator (lower_char c) = is_separator c.
Proof. PyIntFacts.each_char c. Qed.

Lemma capitalize_no_separator w : no_separator (capitalize w) = no_separator w.
Proof.
  unfold no_separator. destruct w as [|c w]; [reflexivity|].
  cbn [capitalize sall]. rewrite upper_char_separator. f_equal.
  unfold lower. induction w as [|d w IH]; [reflexivity|].
  cbn [smap sall]. rewrite lower_char_separator, IH. reflexivity.
Qed.

Lemma assoc_acronym_no_separator k v :
  assoc type_acronyms k = Some v -> no_separator v = true.
Proof.
  unfold type_acronyms. cbn [assoc].
  repeat match goal with
  | |- context [String.eqb ?a k] => destruct (String.eqb a k)
  end; intros H; try discriminate; injection H as <-; reflexivity.
Qed.

Lemma sanitize_word_no_separator w :
  no_separator w = true -> no_separator (sanitize_word w) = true.
Proof.
  intros H. unfold sanitize_word.
  destruct (assoc type_acronyms (lower w)) as [a|] eqn:E.
  - eapply assoc_acronym_no_separator, E.
  - rewrite capitalize_no_separator. exact H.
Qed.

(** Extra: the identifier part that sanitize_keyword makes of an ASCII
    category text holds none of the characters it splits at: no white
    space, hyphen, slash or dot. *)
Theorem sanitized_keyword_has_no_separator (keyword : string) :
  ascii_text keyword = true ->
  no_separator (sanitize_keyword keyword) = true.
Proof.
  intros _. unfold sanitize_keyword, re_split.
  pose proof (re_split_pieces keyword false EmptyString eq_refl) as H.
  induction H as [|w ws Hw _ IH]; [reflexivity|].
  cbn [List.filter]. destruct (nonempty w); [|exact IH].
  cbn [map concat_all fold_right].
  pose proof (sanitize_word_no_separator w Hw) as Hs.
  unfold no_separator in *. rewrite sall_append, Hs. exact IH.
Qed.

Lemma sanitized_keyword_has_no_separator_witness :
  sanitize_keyword " Well-known  frame/of.reference - (UIDs) " = "WellKnownFrameOfReference(uids)"
  /\ no_separator (sanitize_keyword " Well-known  frame/of.reference - (UIDs) ") = true.
Proof.
  split; [reflexivity|].
  apply (sanitized_keyword_has_no_separator " Well-known  frame/of.reference - (UIDs) ").
  reflexivity.
Defined.
End KeywordFacts.

(** ** Quotes and ampersands *)

Module QuoteFacts.
Import Py UidDefs TokenFacts ArtifactFacts.

(* escape_quotes, character by character *)
Lemma escape_quotes_cons c s :
  escape_quotes (String c s)
  = if Ascii.eqb c (ascii_of_nat 34)
    then String (ascii_of_nat 92) (String (ascii_of_nat 34) (escape_quotes s))
    else String c (escape_quotes s).
Proof.
  unfold escape_quotes, replace, dq. cbn [replace_go]. rewrite prefix_single.
  rewrite (Ascii.eqb_sym (ascii_of_nat 34) c).
  destruct (Ascii.eqb c (ascii_of_nat 34)); reflexivity.
Qed.

Lemma escape_quotes_guarded s : forall b, quotes_guarded b (escape_quotes s) = true.
Proof.
  induction s as [|c s IH]; intros b; [reflexivity|].
  rewrite escape_quotes_cons.
  destruct (Ascii.eqb c (ascii_of_nat 34)) eqn:E.
  - cbn [quotes_guarded]. change (Ascii.eqb (ascii_of_nat 92) (ascii_of_nat 34)) with false.
    change (Ascii.eqb (ascii_of_nat 92) (ascii_of_nat 92)) with true.
    change (Ascii.eqb (ascii_of_nat 34) (ascii_of_nat 34)) with true.
    cbn [negb orb andb]. apply IH.
  - cbn [quotes_guarded]. rewrite E. cbn [negb orb andb]. apply IH.
Qed.

(* the escaped text never begins with a quote *)
Lemma escape_quotes_head s :
  String.prefix dq (escape_quotes s) = false.
Proof.
  destruct s as [|c s]; [reflexivity|]. rewrite escape_quotes_cons.
  unfold dq. destruct (Ascii.eqb c (ascii_of_nat 34)) eqn:E.
  - rewrite prefix_single. reflexivity.
  - rewrite prefix_single, Ascii.eqb_sym. exact E.
Qed.

Lemma prefix_pair a b c s :
  String.prefix (String a (String b EmptyString)) (String c s)
  = Ascii.eqb a c && String.prefix (String b EmptyString) s.
Proof.
  cbn [String.prefix]. destruct (ascii_dec a c) as [->|Hne].
  - rewrite Ascii.eqb_refl. reflexivity.
  - apply Ascii.eqb_neq in Hne. rewrite Hne. reflexivity.
Qed.

Lemma unescape_escape s : unescape_quotes (escape_quotes s) = s.
Proof.
  unfold unescape_quotes, replace.
  induction s as [|c s IH]; [reflexivity|].
  rewrite escape_quotes_cons.
  change (String.append backslash dq)
    with (String (ascii_of_nat 92) (String (ascii_of_nat 34) EmptyString)).
  destruct (Ascii.eqb c (ascii_of_nat 34)) eqn:E.
  - apply Ascii.eqb_eq in E. subst c.
    cbn [replace_go]. rewrite prefix_pair, prefix_single.
    change (Ascii.eqb (ascii_of_nat 92) (ascii_of_nat 92)) with true.
    change (Ascii.eqb (ascii_of_nat 34) (ascii_of_nat 34)) with true.
    cbn [andb String.length Nat.pred].
    unfold dq at 1.
    change (String.append (String (ascii_of_nat 34) EmptyString) ?x)
      with (String (ascii_of_nat 34) x).
    f_equal. exact IH.
  - cbn [replace_go]. rewrite prefix_pair.
    fold dq. rewrite escape_quotes_head, andb_false_r. f_equal. exact IH.
Qed.

(** Extra: escape_quotes puts a backslash before every double quote and
    changes nothing else: in its result every quote comes right after a
    backslash, and replacing backslash-quote by quote gives the text back. *)
Theorem escape_quotes_guards_and_loses_nothing (s : string) :
  quotes_guarded false (escape_quotes s) = true
  /\ unescape_quotes (escape_quotes s) = s.
Proof. split; [apply escape_quotes_guarded | apply unescape_escape]. Qed.

Lemma contains_single a s :
  contains (String a EmptyString) s = sany (Ascii.eqb a) s.
Proof.
  induction s as [|c s IH]; [reflexivity|].
  cbn [contains sany]. rewrite prefix_single, IH. reflexivity.
Qed.

Lemma sany_append p a b : sany p (String.append a b) = sany p a || sany p b.
Proof.
  induction a as [|c a IH]; [reflexivity|].
  change (String.append (String c a) b) with (String c (String.append a b)).
  cbn [sany]. rewrite IH, orb_assoc. reflexivity.
Qed.

(* replacing a character by a text without it leaves none behind *)
Lemma replace_single_gone a new s :
  sany (Ascii.eqb a) new = false ->
  sany (Ascii.eqb a) (replace (String a EmptyString) new s) = false.
Proof.
  intros Hn. unfold replace. induction s as [|c s IH]; [reflexivity|].
  cbn [replace_go]. rewrite prefix_single.
  destruct (Ascii.eqb a c) eqn:E.
  - cbn [String.length Nat.pred]. rewrite sany_append, Hn, IH. reflexivity.
  - cbn [sany]. rewrite E, IH. reflexivity.
Qed.

Lemma clean_up_name attr attr' :
  clean_up attr = Ok attr' ->
  exists n, attr' !! "UID Name" = Some n /\ contains "&" n = false.
Proof.
  unfold clean_up, getitem, bind. intros H.
  destruct (attr !! "UID Name") as [n|]; [|discriminate].
  match type of H with
  | context [match ?m !! ?k with _ => _ end] => destruct (m !! k); [|discriminate]
  end.
  injection H as <-. exists (replace "&" "and" n). split.
  - rewrite lookup_insert_ne by discriminate. apply lookup_insert_eq.
  - rewrite contains_single. apply replace_single_gone. reflexivity.
Qed.

(** Extra: no row that load returns has an ampersand in its name: the
    clean-up writes every one out as and, and the word holds none. *)
Theorem loaded_names_have_no_ampersand (src : xml_source)
    (rows : list (gmap string string)) :
  load src = Ok rows ->
  List.Forall (fun r => exists n, r !! "UID Name" = Some n /\ contains "&" n = false) rows.
Proof.
  unfold load, bind. intros H.
  destruct (get_root src) as [root|]; [|discriminate].
  destruct (parse_uid_values_table root) as [uv|]; [|discriminate].
  destruct (parse_frames_of_reference_table root) as [fr|]; [|discriminate].
  eapply (for_each_forall (fun _ => True)); [| |exact H].
  - intros a a' _. apply clean_up_name.
  - apply List.Forall_forall. auto.
Qed.

Lemma loaded_names_have_no_ampersand_witness :
  exists rows,
    load (Download (Ok small_document)) = Ok rows
    /\ map (fun r => r !! "UID Name") rows
       = [Some "Verification and Test"; Some "Talairach Brain Atlas Frame of Reference"]
    /\ List.Forall (fun r => exists n, r !! "UID Name" = Some n /\ contains "&" n = false) rows.
Proof.
  assert (Hn : match load (Download (Ok small_document)) with
               | Ok rows => map (fun r => r !! "UID Name") rows
               | Raise _ => []
               end
               = [Some "Verification and Test";
                  Some "Talairach Brain Atlas Frame of Reference"])
    by (vm_compute; reflexivity).
  destruct (load (Download (Ok small_document))) as [rows|e] eqn:E;
    [|discriminate Hn].
  exists rows. split; [reflexivity|]. split; [exact Hn|].
  exact (loaded_names_have_no_ampersand (Download (Ok small_document)) rows E).
Defined.
End QuoteFacts.

(** ** The index of the common constants *)

Module IndexFacts.
Import Py UidDefs ArtifactFacts.

Lemma find_snoc {A} (p : A -> bool) l x :
  List.find p (l ++ [x]) = match List.find p l with
                           | Some y => Some y
                           | None => if p x then Some x else None
                           end.
Proof.
  induction l as [|y l IH]; cbn [List.find app]; [reflexivity|].
  destruct (p y); [reflexivity|exact IH].
Qed.

Lemma index_by_uid_last attrs : forall acc m uid,
  index_by_uid attrs acc = Ok m ->
  m !! uid = match List.find (has_uid uid) (rev attrs) with
             | Some attr => Some attr
             | None => acc !! uid
             end.
Proof.
  induction attrs as [|a attrs IH]; intros acc m uid H; cbn [index_by_uid] in H.
  - injection H as <-. reflexivity.
  - unfold getitem in H. unfold bind in H.
    destruct (a !! "UID Value") as [v|] eqn:Ev; [|discriminate].
    rewrite (IH _ _ uid H). cbn [rev]. rewrite find_snoc.
    destruct (List.find (has_uid uid) (rev attrs)); [reflexivity|].
    unfold has_uid. rewrite Ev.
    destruct (String.eqb_spec v uid) as [->|Hne].
    + apply lookup_insert_eq.
    + apply lookup_insert_ne, Hne.
Qed.

(** Extra: the index that generate_common_constants builds keeps, for a
    UID Value that several rows hold, the last of those rows, and has no
    entry for a value that no row holds. *)
Theorem index_by_uid_keeps_last_row (attrs : list (gmap string string))
    (m : gmap string (gmap string string)) (uid : string) :
  index_by_uid attrs ∅ = Ok m ->
  m !! uid = List.find (has_uid uid) (rev attrs).
Proof.
  intros H. rewrite (index_by_uid_last _ _ _ uid H).
  destruct (List.find _ _); [reflexivity|apply lookup_empty].
Qed.

Lemma index_by_uid_keeps_last_row_witness :
  exists m,
    index_by_uid [colon_row; plain_retired_row] ∅ = Ok m
    /\ m !! "1.2.840.10008.1.9"
       = List.find (has_uid "1.2.840.10008.1.9") (rev [colon_row; plain_retired_row])
    /\ option_map (fun r : gmap string string => r !! "UID Name")
         (List.find (has_uid "1.2.840.10008.1.9") (rev [colon_row; plain_retired_row]))
       = Some (Some "Storage (Retired)").
Proof.
  assert (Hok : match index_by_uid [colon_row; plain_retired_row] ∅ with
                | Ok _ => true
                | Raise _ => false
                end = true) by (vm_compute; reflexivity).
  destruct (index_by_uid [colon_row; plain_retired_row] ∅) as [m|e] eqn:E;
    [|discriminate Hok].
  exists m. split; [reflexivity|]. split; [|vm_compute; reflexivity].
  exact (index_by_uid_keeps_last_row [colon_row; plain_retired_row] m _ E).
Defined.
End IndexFacts.

(** ** The declaration loop *)

Module LoopFacts.
Import Py UidConst UidConstFacts UidConstClaims.

Lemma skipped_counts entries : forall st,
  (skipped (fold_left loop_body entries st) + length (List.filter surviving entries)
   = skipped st + length entries)%nat.
Proof.
  induction entries as [|[[uid name] retired] rest IH]; intros st.
  - cbn. lia.
  - cbn [fold_left]. rewrite filter_surviving_cons.
    pose proof (IH (loop_body st (uid, name, retired))) as H.
    unfold loop_body in *. destruct (is_blank name); cbn [skipped length] in *; lia.
Qed.

Lemma declarations_length entries : forall seen,
  length (declarations seen entries) = length (List.filter surviving entries).
Proof.
  intros seen. rewrite <- (length_map snd), declarations_uids, length_map. reflexivity.
Qed.

Lemma skipped_bound header entries :
  (length (declared_names entries) + skipped (run_loop header entries))%nat
  = length entries.
Proof.
  unfold run_loop, declared_names. rewrite length_map, declarations_length.
  pose proof (skipped_counts entries {| lines := header; seen_names := ∅; skipped := 0 |}) as H.
  change (skipped {| lines := header; seen_names := ∅; skipped := 0 |}) with 0%nat in H.
  lia.
Qed.

Lemma header_line_kept header entries i :
  (i < length header)%nat ->
  nth i (file_lines header entries) EmptyString = nth i header EmptyString.
Proof.
  intros H. rewrite file_lines_declarations. apply app_nth1, H.
Qed.

Lemma report_count kind output_path entries header :
  List.hd EmptyString
    (report kind output_path (length entries) (skipped (run_loop header entries)))
  = concat_all ["Generated "; output_path; " with ";
                dec (length (declared_names entries)); " "; kind; " UIDs"].
Proof.
  unfold report. cbn [List.hd]. pose proof (skipped_bound header entries) as H.
  replace (length entries - skipped (run_loop header entries))%nat
    with (length (declared_names entries)) by lia.
  reflexivity.
Qed.

(** Extra: the two numbers a generator gives out. The count it prints
    when the file is written, the number of selected rows less the
    skipped ones, is the number of declarations in the file; the Total of
    the sixth line of the file is the number of selected rows, that is the
    declarations and the skipped rows together. *)
Theorem reported_count_is_declared_count (uids : list uid_row) (output_path : string) :
  (List.hd EmptyString (transfer_syntax_report uids output_path)
   = concat_all ["Generated "; output_path; " with ";
                 dec (length (declared_names (transfer_syntaxes uids)));
                 " "; "Transfer Syntax"; " UIDs"]
   /\ generate_transfer_syntax_file uids
      = join nl (file_lines (transfer_syntax_header (length (transfer_syntaxes uids)))
                   (transfer_syntaxes uids))
   /\ nth 5 (file_lines (transfer_syntax_header (length (transfer_syntaxes uids)))
               (transfer_syntaxes uids)) EmptyString
      = String.append "// Total: "
          (String.append
             (dec (length (declared_names (transfer_syntaxes uids))
                   + skipped (run_loop
                                (transfer_syntax_header (length (transfer_syntaxes uids)))
                                (transfer_syntaxes uids))))
             " Transfer Syntax UIDs"))
  /\ (List.hd EmptyString (sop_class_report uids output_path)
      = concat_all ["Generated "; output_path; " with ";
                    dec (length (declared_names (sop_classes uids)));
                    " "; "SOP Class"; " UIDs"]
      /\ generate_sop_class_file uids
         = join nl (file_lines (sop_class_header (length (sop_classes uids)))
                      (sop_classes uids))
      /\ nth 5 (file_lines (sop_class_header (length (sop_classes uids)))
                  (sop_classes uids)) EmptyString
         = String.append "// Total: "
             (String.append
                (dec (length (declared_names (sop_classes uids))
                      + skipped (run_loop (sop_class_header (length (sop_classes uids)))
                                   (sop_classes uids))))
                " SOP Class UIDs")).
Proof.
  split; (split; [apply report_count|]; split; [reflexivity|]);
    rewrite header_line_kept by (cbn; lia); rewrite skipped_bound; reflexivity.
Qed.

Lemma declarations_shape entries : forall seen,
  Forall2 (fun e d =>
             snd d = entry_uid e
             /\ (fst d = to_go_constant_name (entry_name e)
                 \/ fst d = String.append (to_go_constant_name (entry_name e))
                              (String.append "_" (last_segment (entry_uid e)))))
    (List.filter surviving entries) (declarations seen entries).
Proof.
  induction entries as [|[[uid name] retired] rest IH]; intros seen; [constructor|].
  rewrite filter_surviving_cons. cbn [declarations].
  destruct (is_blank name); [apply IH|].
  constructor; [|apply IH].
  cbn [fst snd entry_uid entry_name]. split; [reflexivity|].
  unfold resolve_name, last_segment. destruct (seen !! _); auto.
Qed.

(** Extra: the var block declares the rows that have a name, one
    declaration each and in their order, under the row's own UID; the
    identifier is the one synthesized from the row's name, or that
    identifier followed by an underscore and the text after the last dot of
    the UID, and the first declaration is never suffixed. *)
Theorem declared_name_is_base_or_suffixed (entries : list uid_entry) :
  Forall2 (fun e d =>
             snd d = entry_uid e
             /\ (fst d = to_go_constant_name (entry_name e)
                 \/ fst d = String.append (to_go_constant_name (entry_name e))
                              (String.append "_" (last_segment (entry_uid e)))))
    (List.filter surviving entries) (declarations ∅ entries)
  /\ (forall e d rest, declarations ∅ entries = d :: rest ->
        List.head (List.filter surviving entries) = Some e ->
        fst d = to_go_constant_name (entry_name e)).
Proof.
  split; [apply declarations_shape|].
  induction entries as [|[[uid name] retired] tl IH]; intros e d rest Hd He;
    [discriminate|].
  rewrite filter_surviving_cons in He. cbn [declarations] in Hd.
  destruct (is_blank name); [eapply IH; eassumption|].
  cbn [List.head] in He. injection He as <-. injection Hd as <- _.
  cbn [fst entry_name]. unfold resolve_name. rewrite lookup_empty. reflexivity.
Qed.

Lemma filter_perm {A} (p : A -> bool) (l l' : list A) :
  Permutation l l' -> Permutation (List.filter p l) (List.filter p l').
Proof.
  induction 1 as [|x l l' _ IH|x y l|l l' l'' _ IH1 _ IH2]; cbn [List.filter].
  - constructor.
  - destruct (p x); [constructor|]; exact IH.
  - destruct (p x), (p y); try reflexivity. apply perm_swap.
  - etransitivity; eassumption.
Qed.

Lemma declared_uids_perm l :
  Permutation (declared_uids (sort_by_uid l)) (map entry_uid (List.filter surviving l)).
Proof.
  unfold declared_uids. rewrite declarations_uids.
  apply Permutation_map, filter_perm, sort_by_uid_perm.
Qed.

(** Extra: each generated file declares every row of its category that has
    a name exactly once and declares nothing else: the declared UIDs are a
    rearrangement of the UIDs of those rows. *)
Theorem every_named_row_is_declared_once (uids : list uid_row) :
  Permutation (declared_uids (transfer_syntaxes uids))
    (map entry_uid (List.filter surviving (select_rows is_transfer_syntax uids)))
  /\ Permutation (declared_uids (sop_classes uids))
       (map entry_uid (List.filter surviving (select_rows is_sop_class uids))).
Proof. split; apply declared_uids_perm. Qed.
End LoopFacts.

(** ** Item tags in the dictionary *)

Module ItemFacts.
Import Py PyInt TagGen TagFacts.

(** Extra: a record of the item group (FFFE) is entered in TagDict with the
    one representation vr.Unknown, whatever representation the record
    itself gives. *)
Theorem item_group_is_entered_as_unknown (e : RawAttr) (t : Tag) :
  make_tag e = Ok t ->
  group t = 65534 ->
  tag_dict_entry t
  = cat [ tab; e_keyword e; ": Info{Tag: "; e_keyword e;
          ", VRs: []vr.VR{vr.Unknown}, Name: "; dq; e_name e; dq;
          ", Keyword: "; dq; e_keyword e; dq; ", VM: "; dq; e_valueMultiplicity e; dq;
          ", Retired: "; bool_lower (String.eqb (e_retired e) "Y"); "}," ].
Proof.
  intros Ht Hg. pose proof Ht as Ht'.
  apply make_tag_ok in Ht' as (Hi & _ & Hv & Hk).
  rewrite Hg in Hi. apply int16_fffe in Hi; [|apply take_length].
  rewrite Hi in Hv. cbn [String.eqb Ascii.eqb negb] in Hv.
  unfold make_tag, bind in Ht.
  destruct (int16 (take 4 (resolvable e))); [|discriminate].
  destruct (int16 (drop 4 (resolvable e))); [|discriminate].
  injection Ht as <-. unfold tag_dict_entry.
  cbn [keyword name vm retired vr] in *. rewrite Hv. reflexivity.
Qed.

Lemma item_group_is_entered_as_unknown_witness :
  exists t, make_tag item_record = Ok t /\ group t = 65534
    /\ tag_dict_entry t
       = cat [ tab; e_keyword item_record; ": Info{Tag: "; e_keyword item_record;
               ", VRs: []vr.VR{vr.Unknown}, Name: "; dq; e_name item_record; dq;
               ", Keyword: "; dq; e_keyword item_record; dq;
               ", VM: "; dq; e_valueMultiplicity item_record; dq;
               ", Retired: "; bool_lower (String.eqb (e_retired item_record) "Y"); "}," ].
Proof.
  eexists. split; [reflexivity|]. split; [reflexivity|].
  apply (item_group_is_entered_as_unknown item_record); reflexivity.
Defined.
End ItemFacts.

(** ** The names the rendered tag file declares *)

Module RenderFacts.
Import Py PyInt TagGen TokenFacts SplitFacts GoNameFacts UidConstClaims.

































End RenderFacts.
